(** * rbc_statement_parser: the statement line-parsing engine

    A shallow embedding of [parsers/common.py], [parsers/my_main_money.py],
    [parsers/visa_avion_unlimited.py], [parsers/expense.py], [parsers/nsf.py]
    and of [filter_visa_debit_corrections] from [main.py], with the
    properties of the specification stated and settled over it. *)

From Equations Require Import Equations.
From stdpp Require Import base option list strings pretty gmap.
From Stdlib Require Import ZArith Lia Ascii String.

Local Open Scope string_scope.
Local Open Scope Z_scope.
Local Open Scope list_scope.

(** ** Data model *)

(** [datetime.date] *)
Record Date : Type := mkDate { d_year : Z; d_month : Z; d_day : Z }.

(** The [date] attribute of a record holds [None], a [datetime.date] or,
    after the page scanner's backfill, a string. *)
Inductive PyDate : Type :=
| DNone
| DDate (d : Date)
| DStr (s : string).

#[global] Instance Date_eq_dec : EqDecision Date.
Proof. solve_decision. Defined.

(** [parsers/expense.py]: class [Expense].  [amount] is a [Decimal] with two
    decimal places, kept as a number of cents; [year] is the attribute the
    page scanner adds when it backfills the date. *)
Record Expense : Type := mkExpense {
  date : PyDate;
  year : option Z;
  page : string;
  category : string;
  amount : Z;
  line_number : Z;
  line : string;
  visa_debit_id : option string;
  reversal : bool
}.

(** [parsers/nsf.py]: class [NSF]. *)
Record NSF : Type := mkNSF {
  nsf_date : PyDate;
  nsf_year : option Z;
  nsf_page : string;
  nsf_category : string;
  nsf_amount : Z;
  nsf_line_number : Z;
  nsf_line : string
}.

#[global] Instance PyDate_eq_dec : EqDecision PyDate.
Proof. solve_decision. Defined.

#[global] Instance Expense_eq_dec : EqDecision Expense.
Proof. solve_decision. Defined.

#[global] Instance NSF_eq_dec : EqDecision NSF.
Proof. solve_decision. Defined.

(** [Expense(date=d)]: every other attribute is the class default. *)
Definition new_Expense (d : PyDate) : Expense :=
  mkExpense d None "" "" 0 0 "" None false.

Definition new_NSF (d : PyDate) : NSF :=
  mkNSF d None "" "" 0 0 "".

(** Keeps the equation of a scrutinee in reach of the termination proofs. *)
Definition inspect {A : Type} (x : A) : {y : A | x = y} := exist _ x eq_refl.

(** ** The duplicate/correction resolver ([main.py]) *)

Module Resolver.

(** [Expense] defines no [__eq__], so [list.remove] and the dictionary
    compare objects by identity.  An element of the list is an object: its
    address together with its attributes. *)
Record Obj : Type := mkObj { addr : nat; val : Expense }.

#[global] Instance Obj_eq_dec : EqDecision Obj.
Proof. solve_decision. Defined.

(** [expenses.remove(x)]: drops the first element equal to [x]; [None]
    stands for the [ValueError] raised when there is none. *)
Fixpoint py_remove (x : Obj) (l : list Obj) : option (list Obj) :=
  match l with
  | [] => None
  | y :: tl =>
      if decide (y = x) then Some tl
      else match py_remove x tl with
           | Some tl' => Some (y :: tl')
           | None => None
           end
  end.

(** [str(expense)].  The two messages about a record with an id are
    f-strings, [f'removing corrected expense {expense} '] and
    [f'adding {expense} to map'], built before [debug] looks at [verbose];
    [Expense.__str__] calls [self.date.isoformat()], which is an
    [AttributeError] unless the date is a [datetime.date]. *)
Definition str_ok (expense : Obj) : bool :=
  match date (val expense) with
  | DDate _ => true
  | _ => false
  end.

(** How a turn of [for index, expense in enumerate(expenses)] ends. *)
Inductive Turn : Type :=
| Stop                                          (* the iterator is exhausted *)
| Raises                                        (* AttributeError in str(expense) *)
| Next (m : gmap string Obj) (l : list Obj).    (* on to the next index *)

(** One turn of the loop.  The list iterator holds the index [i] and stops
    once [i] is past the end of the list as it is at that moment; [m] is
    [virtual_debit_map].  A [ValueError] from either [remove] is caught, and
    what was removed before it stays removed. *)
Definition body (i : nat) (m : gmap string Obj) (l : list Obj) : Turn :=
  match l !! i with
  | None => Stop
  | Some expense =>
      match visa_debit_id (val expense) with
      | None => Next m l
      | Some k =>
          match m !! k with
          | Some first =>
              if str_ok expense then
                match py_remove first l with
                | None => Next m l
                | Some l1 =>
                    match py_remove expense l1 with
                    | None => Next m l1
                    | Some l2 => Next m l2
                    end
                end
              else Raises
          | None =>
              if str_ok expense then Next (<[k := expense]> m) l else Raises
          end
      end
  end.

(** How a call ends: the list is returned, or the [AttributeError] leaves
    the function.  Either way [expenses], the caller's list, has been
    filtered in place up to that point. *)
Inductive Outcome : Type :=
| Returned (expenses : list Obj)
| AttributeError (expenses : list Obj).

Definition left_in (o : Outcome) : list Obj :=
  match o with
  | Returned expenses => expenses
  | AttributeError expenses => expenses
  end.

(** The loop: the index advances by one each turn whatever was removed. *)
Equations? scan (i : nat) (m : gmap string Obj) (l : list Obj) : Outcome
  by wf (List.length l - i)%nat lt :=
  scan i m l with inspect (body i m l) := {
    | exist _ Stop _ => Returned l
    | exist _ Raises _ => AttributeError l
    | exist _ (Next m' l') Hb => scan (S i) m' l' }.
Proof.
  assert (Hlen : forall x (a b : list Obj),
             py_remove x a = Some b -> List.length a = S (List.length b)).
  { intros x a. induction a as [|y tl IH]; intros b' H; simpl in H; [discriminate|].
    destruct (decide (y = x)); [injection H as <-; reflexivity|].
    destruct (py_remove x tl) as [tl'|]; [|discriminate].
    injection H as <-. simpl. f_equal. apply IH. reflexivity. }
  unfold body in Hb.
  destruct (l !! i) as [e|] eqn:Hi; [|discriminate].
  apply lookup_lt_Some in Hi.
  destruct (visa_debit_id (val e)) as [k|]; [|injection Hb as <- <-; lia].
  destruct (m !! k) as [f|]; (destruct (str_ok e); [|discriminate]);
    [|injection Hb as <- <-; lia].
  destruct (py_remove f l) as [l1|] eqn:H1; [|injection Hb as <- <-; lia].
  apply Hlen in H1.
  destruct (py_remove e l1) as [l2|] eqn:H2; injection Hb as <- <-; [|lia].
  apply Hlen in H2. lia.
Qed.

(** [filter_visa_debit_corrections(expenses)]: the list is filtered in
    place and returned. *)
Definition filter_visa_debit_corrections (expenses : list Obj) : Outcome :=
  scan 0 ∅ expenses.

End Resolver.

(** ** Regular expressions

    The parsers use Python's [re] with a handful of patterns.  They are
    kept as syntax trees and run by a backtracking matcher with Python's
    priorities: alternatives left to right, quantifiers greedy, a capturing
    group holding the text of its last match.  Lines are taken to be ASCII
    text. *)

Module Re.

Inductive regex : Type :=
| Chr (p : ascii -> bool)          (* one character of a class *)
| Bol                              (* ^ *)
| Eol                              (* $ *)
| Eps
| Seq (a b : regex)
| Alt (a b : regex)
| Rep (lo hi : nat) (a : regex)    (* a{lo,hi}, greedy *)
| Plus (a : regex)                 (* a+, greedy *)
| Group (n : nat) (a : regex).     (* capturing group number n *)

Definition captures : Type := list (nat * list ascii).

(** A match: the text that follows it and what the groups hold. *)
Definition outcome : Type := (list ascii * captures)%type.

Definition cont : Type := bool -> list ascii -> captures -> option outcome.

Definition orelse {A} (x y : option A) : option A :=
  match x with Some _ => x | None => y end.

(** [exec r bol w caps k]: match [r] against the head of [w], the text that
    is left ([bol] says that nothing of the string has been read yet), then
    go on with [k]; the first success in priority order is the result. *)
Fixpoint exec (r : regex) (bol : bool) (w : list ascii) (caps : captures)
  (k : cont) {struct r} : option outcome :=
  match r with
  | Chr p =>
      match w with
      | c :: w' => if p c then k false w' caps else None
      | [] => None
      end
  | Bol => if bol then k bol w caps else None
  | Eol =>
      match w with
      | [] => k bol w caps
      | [c] => if Ascii.eqb c "010" then k bol w caps else None
      | _ => None
      end
  | Eps => k bol w caps
  | Seq a b => exec a bol w caps (fun bol' w' caps' => exec b bol' w' caps' k)
  | Alt a b => orelse (exec a bol w caps k) (exec b bol w caps k)
  | Rep lo hi a =>
      (fix rep (lo hi : nat) (bol : bool) (w : list ascii) (caps : captures)
         {struct hi} : option outcome :=
         match hi with
         | O => k bol w caps
         | S hi' =>
             match lo with
             | S lo' => exec a bol w caps (rep lo' hi')
             | O => orelse (exec a bol w caps (rep O hi')) (k bol w caps)
             end
         end) lo hi bol w caps
  | Plus a =>
      (fix plus (fuel : nat) (bol : bool) (w : list ascii) (caps : captures)
         {struct fuel} : option outcome :=
         exec a bol w caps
           (fun bol' w' caps' =>
              match fuel with
              | O => k bol' w' caps'
              | S fuel' =>
                  if Nat.eqb (List.length w') (List.length w) then k bol' w' caps'
                  else orelse (plus fuel' bol' w' caps') (k bol' w' caps')
              end)) (List.length w) bol w caps
  | Group n a =>
      exec a bol w caps
        (fun bol' w' caps' =>
           k bol' w' ((n, take (List.length w - List.length w') w) :: caps'))
  end.

Definition accept : cont := fun _ w caps => Some (w, caps).

(** [pattern.match(s)]: a match at the start of the string. *)
Definition re_match (r : regex) (s : string) : option outcome :=
  exec r true (list_ascii_of_string s) [] accept.

Fixpoint search_from (r : regex) (bol : bool) (w : list ascii) : option outcome :=
  match exec r bol w [] accept with
  | Some o => Some o
  | None =>
      match w with
      | [] => None
      | _ :: w' => search_from r false w'
      end
  end.

(** [pattern.search(s)]: the leftmost match. *)
Definition re_search (r : regex) (s : string) : option outcome :=
  search_from r true (list_ascii_of_string s).

(** [m.group(n)] as text; a group that took no part in the match reads as
    the empty string here (the patterns below never ask for one). *)
Fixpoint lookup_group (n : nat) (caps : captures) : option (list ascii) :=
  match caps with
  | [] => None
  | (n', v) :: tl => if Nat.eqb n' n then Some v else lookup_group n tl
  end.

Definition group (n : nat) (o : outcome) : string :=
  match lookup_group n (snd o) with
  | Some t => string_of_list_ascii t
  | None => ""
  end.

(** Character classes and literals. *)
Definition is_digit (c : ascii) : bool :=
  let n := nat_of_ascii c in (48 <=? n)%nat && (n <=? 57)%nat.

Definition is_space (c : ascii) : bool :=
  let n := nat_of_ascii c in
  Nat.eqb n 32 || ((9 <=? n)%nat && (n <=? 13)%nat).

Definition in_range (a b : ascii) (c : ascii) : bool :=
  (nat_of_ascii a <=? nat_of_ascii c)%nat && (nat_of_ascii c <=? nat_of_ascii b)%nat.

Definition to_lower (c : ascii) : ascii :=
  let n := nat_of_ascii c in
  if (65 <=? n)%nat && (n <=? 90)%nat then ascii_of_nat (n + 32) else c.

Definition to_upper (c : ascii) : ascii :=
  let n := nat_of_ascii c in
  if (97 <=? n)%nat && (n <=? 122)%nat then ascii_of_nat (n - 32) else c.

Definition digit : regex := Chr is_digit.
Definition space : regex := Chr is_space.
Definition lit (c : ascii) : regex := Chr (Ascii.eqb c).
(** A character under [re.IGNORECASE]. *)
Definition lit_i (c : ascii) : regex :=
  Chr (fun x => Ascii.eqb (to_lower x) (to_lower c)).

Fixpoint str (s : string) : regex :=
  match s with
  | EmptyString => Eps
  | String c EmptyString => lit c
  | String c s' => Seq (lit c) (str s')
  end.

Fixpoint str_i (s : string) : regex :=
  match s with
  | EmptyString => Eps
  | String c EmptyString => lit_i c
  | String c s' => Seq (lit_i c) (str_i s')
  end.

(** [a|b|c|...] over a list of alternatives. *)
Fixpoint alts (l : list regex) : regex :=
  match l with
  | [] => Chr (fun _ => false)
  | [a] => a
  | a :: tl => Alt a (alts tl)
  end.

Definition opt (a : regex) : regex := Rep 0 1 a.

End Re.

(** ** Python values the parsers rely on *)

Module Py.

(** The exceptions that leave the parsers. *)
Inductive exn : Type :=
| ValueError_strptime                          (* datetime.strptime *)
| ValueError_no_amount (line : string)         (* could not find amount in: "line" *)
| ValueError_no_amount_on_line (n : Z)         (* could not find amount for expense on line n *)
| TypeError_search_None                        (* dollar_regex.search(None) *)
| StopIteration.                               (* next() on an exhausted iterator *)

Inductive result (A : Type) : Type :=
| Ok (a : A)
| Raise (e : exn).
Arguments Ok {A} a.
Arguments Raise {A} e.

Definition bind {A B} (x : result A) (f : A -> result B) : result B :=
  match x with
  | Ok a => f a
  | Raise e => Raise e
  end.

#[global] Instance exn_eq_dec : EqDecision exn.
Proof. solve_decision. Defined.

(** [int(s)] for a run of ASCII digits (leading blanks skipped). *)
Definition digit_val (c : ascii) : Z := Z.of_nat (nat_of_ascii c) - 48.

Fixpoint int_acc (acc : Z) (s : string) : Z :=
  match s with
  | EmptyString => acc
  | String c s' =>
      if Re.is_digit c then int_acc (10 * acc + digit_val c) s' else int_acc acc s'
  end.

Definition int_of_string (s : string) : Z := int_acc 0 s.

(** [Decimal(amount.replace(',', ''))] for a text of digits, commas and a
    point followed by exactly two digits: the value in cents. *)
Definition decimal_cents (amount : string) : Z := int_acc 0 amount.

(** [str(n)] for an [int]. *)
Definition str_of_int (n : Z) : string := pretty n.

(** [pattern in line] *)
Fixpoint contains (pattern line : string) : bool :=
  String.prefix pattern line
  || match line with
     | EmptyString => false
     | String _ rest => contains pattern rest
     end.

(** [s.capitalize()] *)
Definition capitalize (s : string) : string :=
  match s with
  | EmptyString => EmptyString
  | String c rest =>
      String (Re.to_upper c)
        (string_of_list_ascii (map Re.to_lower (list_ascii_of_string rest)))
  end.

Definition is_leap (y : Z) : bool :=
  (y mod 4 =? 0) && (negb (y mod 100 =? 0) || (y mod 400 =? 0)).

Definition days_in_month (y m : Z) : Z :=
  if m =? 2 then (if is_leap y then 29 else 28)
  else if (m =? 4) || (m =? 6) || (m =? 9) || (m =? 11) then 30
  else 31.

(** [calendar.month_abbr[1:]] *)
Definition month_abbr : list string :=
  ["Jan"; "Feb"; "Mar"; "Apr"; "May"; "Jun";
   "Jul"; "Aug"; "Sep"; "Oct"; "Nov"; "Dec"].

Definition lower (s : string) : string :=
  string_of_list_ascii (map Re.to_lower (list_ascii_of_string s)).

Definition upper (s : string) : string :=
  string_of_list_ascii (map Re.to_upper (list_ascii_of_string s)).

(** Position (from 1) of a month abbreviation, compared in lower case. *)
Fixpoint month_index (names : list string) (i : Z) (b : string) : option Z :=
  match names with
  | [] => None
  | n :: tl => if String.eqb (lower n) (lower b) then Some i else month_index tl (i + 1) b
  end.

(** The pattern [_strptime] builds for the format ['%d %b %Y']:
    [(3[0-1]|[1-2]\d|0[1-9]|[1-9]| [1-9])\s+(jan|...|dec)\s+(\d\d\d\d)],
    compiled with IGNORECASE. *)
Definition strptime_regex : Re.regex :=
  Re.Seq
    (Re.Group 1
       (Re.alts
          [Re.Seq (Re.lit "3") (Re.Chr (Re.in_range "0" "1"));
           Re.Seq (Re.Chr (Re.in_range "1" "2")) Re.digit;
           Re.Seq (Re.lit "0") (Re.Chr (Re.in_range "1" "9"));
           Re.Chr (Re.in_range "1" "9");
           Re.Seq (Re.lit " ") (Re.Chr (Re.in_range "1" "9"))]))
    (Re.Seq (Re.Plus Re.space)
       (Re.Seq (Re.Group 2 (Re.alts (map (fun n => Re.str_i (lower n)) month_abbr)))
          (Re.Seq (Re.Plus Re.space)
             (Re.Group 3 (Re.Rep 4 4 Re.digit))))).

(** [datetime.strptime(data, '%d %b %Y').date()]: the text has to match
    the pattern with nothing left over and name a day the month has. *)
Definition strptime (data : string) : result Date :=
  match Re.re_match strptime_regex data with
  | None => Raise ValueError_strptime
  | Some found =>
      if negb (Nat.eqb (List.length (fst found)) 0) then Raise ValueError_strptime
      else
        let d := int_of_string (Re.group 1 found) in
        let y := int_of_string (Re.group 3 found) in
        match month_index month_abbr 1 (Re.group 2 found) with
        | None => Raise ValueError_strptime
        | Some m =>
            if (1 <=? y) && (1 <=? d) && (d <=? days_in_month y m)
            then Ok (mkDate y m d)
            else Raise ValueError_strptime
        end
  end.

End Py.

(** ** The parsers *)

Module Parsers.
Import Py.

(** What [process_line] hands back besides [None]. *)
Inductive Item : Type :=
| IExpense (e : Expense)
| INSF (n : NSF).

(** [categories]: the dictionary filled by [load_categories], in insertion
    order, pattern to (page, category, friendly name).  Keys of a dictionary
    are distinct, so the entry met while iterating is the one
    [self.categories[category_pattern]] reads. *)
Definition Categories : Type := list (string * (string * string * string)).

(** [parsers/common.py]: the state of a [Parser] instance. *)
Record Parser : Type := mkParser {
  categories : Categories;
  start_date : Date;
  current_date : option Date;
  current_year : Z
}.

(** [Parser.__init__] *)
Definition new_Parser (cats : Categories) (start : Date) : Parser :=
  mkParser cats start None (d_year start).

Definition set_current_year (self : Parser) (y : Z) : Parser :=
  mkParser (categories self) (start_date self) (current_date self) y.

Definition set_current_date (self : Parser) (d : option Date) : Parser :=
  mkParser (categories self) (start_date self) d (current_year self).

Definition date_attr (d : option Date) : PyDate :=
  match d with
  | Some x => DDate x
  | None => DNone
  end.

(** Truth value of a [date] attribute. *)
Definition truthy (d : PyDate) : bool :=
  match d with
  | DNone => false
  | DDate _ => true
  | DStr s => negb (String.eqb s "")
  end.

(** The first pattern, in dictionary order, that occurs in the line. *)
Fixpoint find_category (cats : Categories) (line : string)
  : option (string * (string * string * string)) :=
  match cats with
  | [] => None
  | (category_pattern, v) :: rest =>
      if contains category_pattern line then Some (category_pattern, v)
      else find_category rest line
  end.

(** [(\d{1,3},?)+(\.\d{2})] with its groups numbered from [n]. *)
Definition amount_regex (n : nat) : Re.regex :=
  Re.Seq
    (Re.Plus (Re.Group n (Re.Seq (Re.Rep 1 3 Re.digit) (Re.opt (Re.lit ",")))))
    (Re.Group (S n) (Re.Seq (Re.lit ".") (Re.Rep 2 2 Re.digit))).

(** The two statement formats share [process_page_lines] through the
    abstract members of [Parser]. *)
Record Format : Type := mkFormat {
  start_of_items : string;
  process_line : Parser -> Z -> string -> string -> result (Parser * option Item)
}.

(** *** [parsers/common.py]: [Parser.process_page_lines] *)

(** The variables of the loop that outlive a turn. *)
Record Scan : Type := mkScan {
  parser : Parser;
  found_start : bool;
  previous_line_item : string;
  processed_expenses : list Expense;
  processed_nsfs : list NSF
}.

(** The backfill of a record without a date: the local [current_date] was
    reset to [''] at the top of the turn. *)
Definition backfill (self : Parser) (processed_item : Item) : Item :=
  match processed_item with
  | IExpense e =>
      if truthy (date e) then IExpense e
      else IExpense (mkExpense (DStr "") (Some (current_year self)) (page e)
                       (category e) (amount e) (line_number e) (line e)
                       (visa_debit_id e) (reversal e))
  | INSF n =>
      if truthy (nsf_date n) then INSF n
      else INSF (mkNSF (DStr "") (Some (current_year self)) (nsf_page n)
                   (nsf_category n) (nsf_amount n) (nsf_line_number n) (nsf_line n))
  end.

(** One turn of [for line_number, line_item in enumerate(line_items, start=1)]. *)
Definition page_step (F : Format) (s : Scan) (line_number : Z) (line_item : string)
  : result Scan :=
  if String.eqb line_item (start_of_items F) then
    Ok (mkScan (parser s) true (previous_line_item s)
          (processed_expenses s) (processed_nsfs s))
  else if negb (found_start s) then Ok s
  else
    bind (process_line F (parser s) line_number line_item (previous_line_item s))
      (fun r =>
         let self := fst r in
         match snd r with
         | None =>
             Ok (mkScan self (found_start s) line_item
                   (processed_expenses s) (processed_nsfs s))
         | Some processed_item =>
             match backfill self processed_item with
             | INSF n =>
                 Ok (mkScan self (found_start s) line_item
                       (processed_expenses s) (processed_nsfs s ++ [n]))
             | IExpense e =>
                 if (0 <? String.length (line e))%nat then
                   Ok (mkScan self (found_start s) line_item
                         (processed_expenses s ++ [e]) (processed_nsfs s))
                 else
                   Ok (mkScan self (found_start s) line_item
                         (processed_expenses s) (processed_nsfs s))
             end
         end).

Fixpoint page_loop (F : Format) (s : Scan) (line_number : Z) (line_items : list string)
  : result Scan :=
  match line_items with
  | [] => Ok s
  | line_item :: rest =>
      bind (page_step F s line_number line_item)
        (fun s' => page_loop F s' (line_number + 1) rest)
  end.

(** [return processed_expenses, processed_nsfs, previous_line_item], with
    the parser as the page leaves it. *)
Definition page_result (s : Scan) : list Expense * list NSF * string * Parser :=
  (processed_expenses s, processed_nsfs s, previous_line_item s, parser s).

(** [Parser.process_page_lines(line_items, previous_line_item)]: the two
    lists, the last line handed to [process_line], and the parser as the
    page leaves it. *)
Definition process_page_lines (F : Format) (self : Parser)
  (line_items : list string) (previous_line_item : string)
  : result (list Expense * list NSF * string * Parser) :=
  bind (page_loop F (mkScan self false previous_line_item [] []) 1 line_items)
    (fun s => Ok (page_result s)).

(** *** [parsers/my_main_money.py] *)

Module MyMainMoney.

(** [(^\d+ (Jan|Feb|...|Dec))] *)
Definition date_regex : Re.regex :=
  Re.Group 1
    (Re.Seq Re.Bol
       (Re.Seq (Re.Plus Re.digit)
          (Re.Seq (Re.lit " ") (Re.Group 2 (Re.alts (map Re.str month_abbr)))))).

(** [((\d{1,3},?)+(\.\d{2}))] *)
Definition dollar_regex : Re.regex := Re.Group 1 (amount_regex 2).

(** [Visa Debit (purchase|correction|refund) - (\d+)] *)
Definition visa_debit_regex : Re.regex :=
  Re.Seq (Re.str "Visa Debit ")
    (Re.Seq (Re.Group 1 (Re.alts [Re.str "purchase"; Re.str "correction"; Re.str "refund"]))
       (Re.Seq (Re.str " - ") (Re.Group 2 (Re.Plus Re.digit)))).

(** [Item returned NSF ((\d{1,3},?)+(\.\d{2}))] *)
Definition nsf_regex : Re.regex :=
  Re.Seq (Re.str "Item returned NSF ") (Re.Group 1 (amount_regex 2)).

(** Lines 52-77 of [process_line]: the date at the head of the line.  The
    new date is built with the year as it is before the two checks. *)
Definition track_date (self : Parser) (line : string) : result Parser :=
  match Re.re_match date_regex line with
  | None => Ok self
  | Some date_match =>
      let new_date_string := Re.group 1 date_match in
      bind (strptime (new_date_string +:+ " " +:+ str_of_int (current_year self)))
        (fun new_date =>
           let self1 :=
             match current_date self with
             | None =>
                 if d_month new_date =? 12
                 then set_current_year self (current_year self - 1)
                 else self
             | Some _ => self
             end in
           let self2 :=
             match current_date self1 with
             | Some d =>
                 if (d_month d =? 12) && (d_month new_date =? 1)
                 then set_current_year self1 (current_year self1 + 1)
                 else self1
             | None => self1
             end in
           Ok (set_current_date self2 (Some new_date)))
  end.

(** The tag a virtual-debit header on the previous line puts on the record. *)
Definition visa_debit_tag (previous_line : string) : option string * bool :=
  match Re.re_search visa_debit_regex previous_line with
  | None => (None, false)
  | Some visa_debit_match =>
      let mode := Re.group 1 visa_debit_match in
      let purchase_id := Re.group 2 visa_debit_match in
      (Some purchase_id,
       String.eqb mode "correction" || String.eqb mode "refund")
  end.

(** [MyMainMoney.process_line].  The text computed for [line] from the
    statement line is overwritten by the friendly name at once. *)
Definition process_line (self : Parser) (line_number : Z) (line previous_line : string)
  : result (Parser * option Item) :=
  bind (track_date self line)
    (fun self =>
       match Re.re_match nsf_regex line with
       | Some nsf_match =>
           let amount := Re.group 1 nsf_match in
           Ok (self,
               Some (INSF (mkNSF (date_attr (current_date self)) None "" ""
                             (decimal_cents amount) 0 "")))
       | None =>
           let tag := visa_debit_tag previous_line in
           match find_category (categories self) line with
           | None => Ok (self, None)
           | Some (category_pattern, (page, category, friendly_name)) =>
               match Re.re_search dollar_regex line with
               | None => Raise (ValueError_no_amount line)
               | Some dollar_match =>
                   let amount := Re.group 1 dollar_match in
                   Ok (self,
                       Some (IExpense
                               (mkExpense (date_attr (current_date self)) None
                                  page category (decimal_cents amount) 0
                                  friendly_name (fst tag) (snd tag))))
               end
           end
       end).

Definition format : Format :=
  mkFormat "Date Description Withdrawals ($) Deposits ($) Balance ($)" process_line.

End MyMainMoney.

(** *** [parsers/visa_avion_unlimited.py] *)

Module VISAAvionUnlimited.

(** [^((JAN|FEB|...|DEC) (\d+))] *)
Definition date_regex : Re.regex :=
  Re.Seq Re.Bol
    (Re.Group 1
       (Re.Seq (Re.Group 2 (Re.alts (map (fun n => Re.str (upper n)) month_abbr)))
          (Re.Seq (Re.lit " ") (Re.Group 3 (Re.Plus Re.digit))))).

(** [\$((\d{1,3},?)+(\.\d{2}))$] *)
Definition dollar_regex : Re.regex :=
  Re.Seq (Re.lit "$") (Re.Seq (Re.Group 1 (amount_regex 2)) Re.Eol).

(** [Decimal(match.groups()[0].replace(',', ''))] when the line matches. *)
Definition dollar_amount (next_line : string) : option Z :=
  match Re.re_search dollar_regex next_line with
  | Some m => Some (decimal_cents (Re.group 1 m))
  | None => None
  end.

(** Lines 125-147 of [process_line]: here [self.current_date] is assigned
    before the two checks read it. *)
Definition track_date (self : Parser) (line : string) : result Parser :=
  match Re.re_search date_regex line with
  | None => Ok self
  | Some date_match =>
      let new_date_string :=
        Re.group 3 date_match +:+ " " +:+ capitalize (Re.group 2 date_match) in
      bind (strptime (new_date_string +:+ " " +:+ str_of_int (current_year self)))
        (fun new_date =>
           let self0 := set_current_date self (Some new_date) in
           let self1 :=
             match current_date self0 with
             | None =>
                 if d_month new_date =? 12
                 then set_current_year self0 (current_year self0 - 1)
                 else self0
             | Some _ => self0
             end in
           let self2 :=
             match current_date self1 with
             | Some d =>
                 if (d_month d =? 12) && (d_month new_date =? 1)
                 then set_current_year self1 (current_year self1 + 1)
                 else self1
             | None => self1
             end in
           Ok self2)
  end.

(** [VISAAvionUnlimited.process_line]; [line[14:]] is overwritten by the
    friendly name at once. *)
Definition process_line (self : Parser) (line_number : Z) (line previous_line : string)
  : result (Parser * option Item) :=
  bind (track_date self line)
    (fun self =>
       match find_category (categories self) line with
       | Some (category_pattern, (page, category, friendly_name)) =>
           Ok (self,
               Some (IExpense
                       (mkExpense (date_attr (current_date self)) None page category
                          0 line_number friendly_name None false)))
       | None => Ok (self, None)
       end).

Definition format : Format :=
  mkFormat "TRANSACTION POSTINGACTIVITY DESCRIPTION AMOUNT ($)DATE DATE" process_line.

(** [get_next_line(line_iterable)]: the next line, or [None] once the
    iterator is exhausted; with it, the iterator after the call. *)
Definition get_next_line (itr : list string) : option string * list string :=
  match itr with
  | [] => (None, [])
  | x :: rest => (Some x, rest)
  end.

(** The inner loop
    [while not found_amount and amount_lines_processed <= 2]: the amount
    if one was found, the counter and the iterator as the loop leaves them.
    [dollar_regex.search(None)] is a [TypeError]. *)
Equations? lookahead (amount_lines_processed : nat) (itr : list string)
  : result (option Z * nat * list string)
  by wf (3 - amount_lines_processed)%nat lt :=
  lookahead amount_lines_processed itr
    with inspect (amount_lines_processed <=? 2)%nat := {
    | exist _ false _ => Ok (None, amount_lines_processed, itr)
    | exist _ true Hle with get_next_line itr := {
      | (None, _) => Raise TypeError_search_None
      | (Some next_line, itr') with dollar_amount next_line := {
        | Some amount => Ok (Some amount, amount_lines_processed, itr')
        | None => lookahead (S amount_lines_processed) itr' } } }.
Proof.
  apply Nat.leb_le in Hle. lia.
Qed.

(** [expense.date = current_date] when the date is not set: the local
    [current_date] is ['']. *)
Definition backfill_date (e : Expense) : Expense :=
  if truthy (date e) then e
  else mkExpense (DStr "") (year e) (page e) (category e) (amount e)
         (line_number e) (line e) (visa_debit_id e) (reversal e).

Definition set_amount (e : Expense) (a : Z) : Expense :=
  mkExpense (date e) (year e) (page e) (category e) a
    (line_number e) (line e) (visa_debit_id e) (reversal e).

(** The variables of the outer [while line_item is not None] loop. *)
Record Cursor : Type := mkCursor {
  self : Parser;
  found_start : bool;
  line_number : Z;
  line_item : option string;
  line_items_itr : list string;
  previous_line_item : string;
  processed_lines : list Expense
}.

(** [line_item = get_next_line(line_items_itr)] with the line counter
    moved on by [step]. *)
Definition advance (c : Cursor) (self' : Parser) (found : bool) (step : Z)
  (previous : string) (processed : list Expense) (itr : list string) : Cursor :=
  mkCursor self' found (line_number c + step) (fst (get_next_line itr))
    (snd (get_next_line itr)) previous processed.

(** One turn of the outer loop, for the line under the cursor. *)
Definition turn (c : Cursor) (current : string) : result Cursor :=
  if String.eqb current (start_of_items format) then
    Ok (advance c (self c) true 1 (previous_line_item c) (processed_lines c)
          (line_items_itr c))
  else if negb (found_start c) then
    Ok (advance c (self c) (found_start c) 1 (previous_line_item c)
          (processed_lines c) (line_items_itr c))
  else
    bind (process_line (self c) (line_number c) current (previous_line_item c))
      (fun r =>
         let self' := fst r in
         match snd r with
         | Some (IExpense expense) =>
             let expense := backfill_date expense in
             if (0 <? String.length (line expense))%nat then
               bind (lookahead 1 (line_items_itr c))
                 (fun found =>
                    let '(found_amount, amount_lines_processed, itr) := found in
                    match found_amount with
                    | None => Raise (ValueError_no_amount_on_line (line_number c))
                    | Some a =>
                        Ok (advance c self' (found_start c)
                              (Z.of_nat amount_lines_processed + 1) current
                              (processed_lines c ++ [set_amount expense a]) itr)
                    end)
             else
               Ok (advance c self' (found_start c) 1 current (processed_lines c)
                     (line_items_itr c))
         | _ =>
             (* [None]; this [process_line] builds no NSF *)
             Ok (advance c self' (found_start c) 1 current (processed_lines c)
                   (line_items_itr c))
         end).

(** What is left to read: the line under the cursor and the iterator. *)
Definition remaining (c : Cursor) : nat :=
  (match line_item c with Some _ => 1 | None => 0 end + List.length (line_items_itr c))%nat.

(** [while line_item is not None] *)
Equations? loop (c : Cursor) : result Cursor by wf (remaining c) lt :=
  loop c with inspect (line_item c) := {
    | exist _ None _ => Ok c
    | exist _ (Some current) Hcur with inspect (turn c current) := {
      | exist _ (Raise e) _ => Raise e
      | exist _ (Ok c') Hturn => loop c' } }.
Proof.
  assert (Hadv : forall c0 p f n pr ps itr,
             remaining (advance c0 p f n pr ps itr) = List.length itr).
  { intros. unfold remaining, advance. simpl. destruct itr; reflexivity. }
  assert (Hlook : forall n itr f n' itr',
             lookahead n itr = Ok (f, n', itr') ->
             (List.length itr' <= List.length itr)%nat).
  { clear. intros n itr. funelim (lookahead n itr); intros f n' itr0 Hl.
    - injection Hl as _ _ <-. lia.
    - discriminate.
    - injection Hl as _ _ <-. destruct itr; simpl in Heq0; [discriminate|].
      injection Heq0 as _ <-. simpl. lia.
    - match goal with
      | IH : forall _ _ _, lookahead _ _ = _ -> _ |- _ => apply IH in Hl
      end.
      destruct itr; simpl in Heq0; [discriminate|].
      injection Heq0 as _ <-. simpl. lia. }
  unfold remaining at 2. rewrite Hcur.
  unfold turn in Hturn.
  destruct (String.eqb current (start_of_items format));
    [injection Hturn as <-; rewrite Hadv; lia|].
  destruct (negb (found_start c)); [injection Hturn as <-; rewrite Hadv; lia|].
  destruct (process_line (self c) (line_number c) current (previous_line_item c))
    as [[p [[e|n]|]]|]; simpl in Hturn; try discriminate;
    try (injection Hturn as <-; rewrite Hadv; lia).
  destruct (0 <? String.length (line (backfill_date e)))%nat;
    [|injection Hturn as <-; rewrite Hadv; lia].
  destruct (lookahead 1 (line_items_itr c)) as [[[f n'] itr']|] eqn:Hl;
    simpl in Hturn; [|discriminate].
  destruct f; [|discriminate].
  injection Hturn as <-. rewrite Hadv. apply Hlook in Hl. lia.
Qed.

(** [return processed_lines, processed_nsfs, previous_line_item];
    [processed_nsfs] is never appended to. *)
Definition cursor_result (c : Cursor) : list Expense * list NSF * string * Parser :=
  (processed_lines c, [], previous_line_item c, self c).

(** [VISAAvionUnlimited.process_page_lines(line_items, previous_line_item)]:
    the first line is taken with a bare [next], and the argument
    [previous_line_item] is overwritten with [''] before the loop. *)
Definition process_page_lines (self : Parser) (line_items : list string)
  (previous_line_item : string)
  : result (list Expense * list NSF * string * Parser) :=
  match line_items with
  | [] => Raise StopIteration
  | first :: line_items_itr =>
      bind (loop (mkCursor self false 1 (Some first) line_items_itr "" []))
        (fun c => Ok (cursor_result c))
  end.

End VISAAvionUnlimited.

End Parsers.

(** ** The category table and the report ([main.py]) *)

Module Main.
Import Resolver.

(** A Python [dict]: keys in insertion order, each key once. *)
Definition dict (K V : Type) : Type := list (K * V).

(** [d.get(k)], which is also [k in d] and [d[k]] for a key that is there. *)
Fixpoint get {K V} `{EqDecision K} (k : K) (d : dict K V) : option V :=
  match d with
  | [] => None
  | (k', v) :: rest => if decide (k' = k) then Some v else get k rest
  end.

(** [d[k] = v]: a key that is there keeps its place, a new key goes to the
    end. *)
Fixpoint set {K V} `{EqDecision K} (k : K) (v : V) (d : dict K V) : dict K V :=
  match d with
  | [] => [(k, v)]
  | (k', v') :: rest =>
      if decide (k' = k) then (k, v) :: rest else (k', v') :: set k v rest
  end.

(** The decoded [categories.json]: page, then category, then pattern, to a
    friendly name or [null]. *)
Definition Config : Type :=
  dict string (dict string (dict string (option string))).

(** [load_categories]: the three nested loops over [config.items()]; the
    table printed for [display] is left out. *)
Definition load_patterns (page category : string)
  (categories : Parsers.Categories) (patterns : dict string (option string))
  : Parsers.Categories :=
  foldl (fun categories entry =>
           let '(pattern, friendly_name) := entry in
           let friendly_name :=
             match friendly_name with
             | None => pattern
             | Some name => name
             end in
           set pattern (page, category, friendly_name) categories)
    categories patterns.

Definition load_page (page : string) (categories : Parsers.Categories)
  (page_categories : dict string (dict string (option string)))
  : Parsers.Categories :=
  foldl (fun categories entry =>
           let '(category, patterns) := entry in
           load_patterns page category categories patterns)
    categories page_categories.

Definition load_categories (config : Config) : Parsers.Categories :=
  foldl (fun categories entry =>
           let '(page, page_categories) := entry in
           load_page page categories page_categories)
    [] config.

(** [generate_report]: year, then page, then category, to the expenses in
    the order they were met. *)
Definition Report : Type := dict Z (dict string (dict string (list Obj))).

(** One turn of [for expense in expenses].  [expense.date.year] is an
    [AttributeError] ([None] here) unless the date is a [datetime.date];
    each missing level is created empty, and the [append] writes through to
    the report. *)
Definition add_expense (report : Report) (expense : Obj) : option Report :=
  match date (val expense) with
  | DDate d =>
      let pages := default [] (get (d_year d) report) in
      let page_categories := default [] (get (page (val expense)) pages) in
      let items := default [] (get (category (val expense)) page_categories) in
      Some (set (d_year d)
              (set (page (val expense))
                 (set (category (val expense)) (items ++ [expense]) page_categories)
                 pages)
              report)
  | _ => None
  end.

Fixpoint report_loop (report : Report) (expenses : list Obj) : option Report :=
  match expenses with
  | [] => Some report
  | expense :: rest =>
      match add_expense report expense with
      | Some report' => report_loop report' rest
      | None => None
      end
  end.

Definition generate_report (expenses : list Obj) : option Report :=
  report_loop [] expenses.

(** [report[year][page][category]], empty when a level is missing. *)
Definition bucket (report : Report) (y : Z) (p c : string) : list Obj :=
  default [] (get c (default [] (get p (default [] (get y report))))).

(** The page loop of [process_statement], over the lines of each page of
    the statement ([process_page] splits the text of a page into lines and
    hands them to [process_page_lines]); [scan] is the [process_page_lines]
    of the parser chosen for the statement.  Nothing is caught: an
    exception on a page ends the statement. *)
Definition PageScanner : Type :=
  Parsers.Parser -> list string -> string ->
  Py.result (list Expense * list NSF * string * Parsers.Parser).

Fixpoint process_pages (scan : PageScanner) (parser : Parsers.Parser)
  (pages : list (list string)) (previous_page_last_line : string)
  (pages_expenses : list Expense) (pages_nsfs : list NSF)
  : Py.result (list Expense * list NSF * Parsers.Parser) :=
  match pages with
  | [] => Py.Ok (pages_expenses, pages_nsfs, parser)
  | line_items :: rest =>
      Py.bind (scan parser line_items previous_page_last_line)
        (fun r =>
           let '(expenses, nsfs, last, parser') := r in
           process_pages scan parser' rest last
             (pages_expenses ++ expenses) (pages_nsfs ++ nsfs))
  end.

(** [process_statement] once the parser class is chosen and the date read
    from the file name. *)
Definition process_statement (scan : PageScanner) (categories : Parsers.Categories)
  (statement_date : Date) (pages : list (list string))
  : Py.result (list Expense * list NSF * Parsers.Parser) :=
  process_pages scan (Parsers.new_Parser categories statement_date) pages "" [] [].

End Main.

(** ** Sample records and statements *)

Module Samples.
Import Resolver.

(** An expense as the Format A parser leaves it after a virtual-debit
    header: a purchase has [reversal = False], a correction [True]. *)
Definition tagged (a : nat) (id : string) (rev : bool) : Obj :=
  mkObj a (mkExpense (DDate (mkDate 2023 1 3)) None "Food" "Dining" 450 0 "Coffee"
             (Some id) rev).

Definition purchase (a : nat) (id : string) : Obj := tagged a id false.
Definition correction (a : nat) (id : string) : Obj := tagged a id true.

(** An expense that followed no virtual-debit header. *)
Definition plain (a : nat) : Obj :=
  mkObj a (mkExpense (DDate (mkDate 2023 1 3)) None "Food" "Dining" 450 0 "Coffee"
             None false).

(** An expense with a calendar date, as a dated line leaves it. *)
Definition dated (a : nat) (d : Date) (pg cat : string) : Obj :=
  mkObj a (mkExpense (DDate d) None pg cat 450 0 "Coffee" None false).

(** A category table and the parser of a statement dated 2023-01-05. *)
Definition sample_categories : Parsers.Categories :=
  [("COFFEE SHOP", ("Food", "Dining", "Coffee"));
   ("OVERLIMIT FEE", ("Bank", "Fees", "Overlimit fee"));
   ("VOID", ("Ignore", "Ignore", ""))].

Definition sample_parser : Parsers.Parser :=
  Parsers.new_Parser sample_categories (mkDate 2023 1 5).

End Samples.

(** * Properties *)

(** ** The resolver *)

Section ResolverFacts.
Import Resolver.

Implicit Types (i : nat) (m : gmap string Obj) (l : list Obj) (x y e : Obj).

Lemma scan_unfold i m l :
  scan i m l =
  match body i m l with
  | Stop => Returned l
  | Raises => AttributeError l
  | Next m' l' => scan (S i) m' l'
  end.
Proof.
  funelim (scan i m l);
    match goal with Hb : body _ _ _ = _ |- _ => rewrite Hb end; reflexivity.
Qed.

(** The loop rule: what every turn preserves holds of the list the call
    leaves, where the iterator was exhausted or [str(expense)] raised. *)
Lemma scan_invariant (I : nat -> gmap string Obj -> list Obj -> Prop) :
  (forall i m l m' l', I i m l -> body i m l = Next m' l' -> I (S i) m' l') ->
  forall i m l, I i m l ->
    exists i' m',
      I i' m' (left_in (scan i m l)) /\
      match scan i m l with
      | Returned out => body i' m' out = Stop
      | AttributeError out => body i' m' out = Raises
      end.
Proof.
  intros Hstep i m l. funelim (scan i m l); intros HI.
  all: try (exists i, m; split; [exact HI|assumption]).
  match goal with
  | IH : forall J : nat -> _, _ |- _ => apply (IH I Hstep)
  end.
  eapply Hstep; eassumption.
Qed.

Lemma py_remove_None x l : py_remove x l = None <-> x ∉ l.
Proof.
  induction l as [|y tl IH]; simpl.
  - split; [intros _; apply not_elem_of_nil|reflexivity].
  - destruct (decide (y = x)) as [->|Hne].
    + split; [discriminate|]. intros Hn. exfalso. apply Hn. left.
    + destruct (py_remove x tl) as [tl'|].
      * split; [discriminate|]. intros Hn. exfalso.
        assert (Hx : x ∉ tl) by (intros Hin; apply Hn; right; exact Hin).
        apply IH in Hx. discriminate.
      * split; [|reflexivity]. intros _ Hin.
        apply elem_of_cons in Hin as [->|Hin]; [congruence|].
        destruct IH as [IH _]. apply (IH eq_refl). exact Hin.
Qed.

Lemma py_remove_app x pre post :
  x ∉ pre -> py_remove x (pre ++ x :: post) = Some (pre ++ post).
Proof.
  induction pre as [|y tl IH]; intros Hn; simpl.
  - destruct (decide (x = x)); [reflexivity|congruence].
  - destruct (decide (y = x)) as [->|Hne]; [exfalso; apply Hn; left|].
    rewrite IH; [reflexivity|]. intros Hin. apply Hn. right. exact Hin.
Qed.

Lemma py_remove_sublist x l l' : py_remove x l = Some l' -> l' `sublist_of` l.
Proof.
  revert l'. induction l as [|y tl IH]; intros l' H; simpl in H; [discriminate|].
  destruct (decide (y = x)).
  - injection H as <-. apply sublist_cons. reflexivity.
  - destruct (py_remove x tl) as [tl'|]; [|discriminate].
    injection H as <-. apply sublist_skip. apply IH. reflexivity.
Qed.

Lemma py_remove_other x y l l' :
  py_remove x l = Some l' -> y ≠ x -> y ∈ l -> y ∈ l'.
Proof.
  revert l'. induction l as [|z tl IH]; intros l' H Hne Hin; simpl in H; [discriminate|].
  destruct (decide (z = x)) as [->|Hzx].
  - injection H as <-. apply elem_of_cons in Hin as [->|Hin]; [congruence|exact Hin].
  - destruct (py_remove x tl) as [tl'|]; [|discriminate].
    injection H as <-. apply elem_of_cons in Hin as [->|Hin]; [left|right].
    apply IH; [reflexivity|exact Hne|exact Hin].
Qed.

Lemma elem_of_drop_S {A} (z : A) (j : nat) (l : list A) :
  z ∈ drop (S j) l -> z ∈ drop j l.
Proof.
  revert j. induction l as [|y tl IH]; intros j H; [destruct j; exact H|].
  destruct j as [|j]; simpl in *; [right; exact H|]. apply IH. exact H.
Qed.

Lemma py_remove_drop x l l' i z :
  py_remove x l = Some l' -> z ∈ drop i l' -> z ∈ drop i l.
Proof.
  revert l' i. induction l as [|y tl IH]; intros l' i H Hin; simpl in H; [discriminate|].
  destruct (decide (y = x)).
  - injection H as <-. destruct i as [|i]; simpl in *; [right; exact Hin|].
    apply elem_of_drop_S. exact Hin.
  - destruct (py_remove x tl) as [tl'|]; [|discriminate].
    injection H as <-. destruct i as [|i]; simpl in *.
    + apply elem_of_cons in Hin as [->|Hin]; [left|right].
      apply (IH tl' 0%nat eq_refl). exact Hin.
    + apply (IH tl' i eq_refl). exact Hin.
Qed.

(** The five ways a turn that does not raise can go. *)
Inductive turn_of i m l : gmap string Obj -> list Obj -> Prop :=
| turn_untagged e :
    l !! i = Some e -> visa_debit_id (val e) = None -> turn_of i m l m l
| turn_first e k :
    l !! i = Some e -> visa_debit_id (val e) = Some k -> m !! k = None ->
    turn_of i m l (<[k := e]> m) l
| turn_gone e k first :
    l !! i = Some e -> visa_debit_id (val e) = Some k -> m !! k = Some first ->
    py_remove first l = None -> turn_of i m l m l
| turn_half e k first l1 :
    l !! i = Some e -> visa_debit_id (val e) = Some k -> m !! k = Some first ->
    py_remove first l = Some l1 -> py_remove e l1 = None -> turn_of i m l m l1
| turn_pair e k first l1 l2 :
    l !! i = Some e -> visa_debit_id (val e) = Some k -> m !! k = Some first ->
    py_remove first l = Some l1 -> py_remove e l1 = Some l2 -> turn_of i m l m l2.

Lemma body_turn_of i m l m' l' : body i m l = Next m' l' -> turn_of i m l m' l'.
Proof.
  unfold body. destruct (l !! i) as [e|] eqn:Hi; [|discriminate].
  destruct (visa_debit_id (val e)) as [k|] eqn:Hk.
  - destruct (m !! k) as [first|] eqn:Hm; (destruct (str_ok e); [|discriminate]).
    + destruct (py_remove first l) as [l1|] eqn:H1.
      * destruct (py_remove e l1) as [l2|] eqn:H2; intros [= <- <-].
        -- eapply turn_pair; eassumption.
        -- eapply turn_half; eassumption.
      * intros [= <- <-]. eapply turn_gone; eassumption.
    + intros [= <- <-]. eapply turn_first; eassumption.
  - intros [= <- <-]. eapply turn_untagged; eassumption.
Qed.

Lemma turn_of_sublist i m l m' l' : turn_of i m l m' l' -> l' `sublist_of` l.
Proof.
  destruct 1; try reflexivity.
  - eapply py_remove_sublist; eassumption.
  - etransitivity; eapply py_remove_sublist; eassumption.
Qed.

Lemma scan_sublist i m l : left_in (scan i m l) `sublist_of` l.
Proof.
  destruct (scan_invariant (fun _ _ l' => l' `sublist_of` l)) with (i := i) (m := m) (l := l)
    as (i' & m' & H & _); [|reflexivity|exact H].
  intros i0 m0 l0 m1 l1 H0 Hb. etransitivity; [|exact H0].
  eapply turn_of_sublist, body_turn_of, Hb.
Qed.

(** A record the loop can print: it has no id, so it is never printed, or
    its date is a calendar date. *)
Definition tag_dated (o : Obj) : bool :=
  match visa_debit_id (val o) with
  | None => true
  | Some _ => str_ok o
  end.

Lemma body_Raises i m l :
  body i m l = Raises -> exists e, l !! i = Some e /\ tag_dated e = false.
Proof.
  unfold body. destruct (l !! i) as [e|] eqn:Hi; [|discriminate].
  intros Hb. exists e. split; [reflexivity|]. unfold tag_dated.
  destruct (visa_debit_id (val e)) as [k|]; [|discriminate].
  destruct (str_ok e); [|reflexivity]. exfalso.
  destruct (m !! k) as [first|]; [|discriminate].
  destruct (py_remove first l) as [l1|]; [|discriminate].
  destruct (py_remove e l1); discriminate.
Qed.

(** When every record with an id carries a calendar date, the loop returns. *)
Lemma scan_returns i m l :
  Forall (fun o => tag_dated o = true) l -> exists out, scan i m l = Returned out.
Proof.
  intros Hall.
  destruct (scan_invariant (fun _ _ l' => Forall (fun o => tag_dated o = true) l'))
    with (i := i) (m := m) (l := l) as (i' & m' & H & Hend); [|exact Hall|].
  - intros i0 m0 l0 m1 l1 H0 Hb.
    apply Forall_forall. intros o Ho. rewrite Forall_forall in H0. apply H0.
    eapply elem_of_sublist; [exact Ho|]. eapply turn_of_sublist, body_turn_of, Hb.
  - destruct (scan i m l) as [out|out]; [exists out; reflexivity|].
    simpl in H. apply body_Raises in Hend as (e & He & Hbad).
    rewrite Forall_forall in H.
    rewrite (H e) in Hbad; [discriminate|]. eapply list_elem_of_lookup_2, He.
Qed.

(** Every record the dictionary holds carries the key it is stored under. *)
Definition keyed (m : gmap string Obj) : Prop :=
  forall k f, m !! k = Some f -> visa_debit_id (val f) = Some k.

Lemma keyed_empty : keyed ∅.
Proof. intros k f H. rewrite lookup_empty in H. discriminate. Qed.

Lemma turn_of_keyed i m l m' l' : turn_of i m l m' l' -> keyed m -> keyed m'.
Proof.
  destruct 1; intros Hm; try exact Hm.
  intros k' f Hf. destruct (decide (k = k')) as [<-|Hne].
  - rewrite lookup_insert_eq in Hf. injection Hf as <-. assumption.
  - rewrite lookup_insert_ne in Hf by exact Hne. apply Hm. exact Hf.
Qed.

Definition untagged (o : Obj) : Prop := visa_debit_id (val o) = None.

#[local] Instance untagged_dec o : Decision (untagged o).
Proof. unfold untagged. solve_decision. Defined.

Lemma py_remove_filter_untagged x l l' :
  ~ untagged x -> py_remove x l = Some l' -> filter untagged l' = filter untagged l.
Proof.
  intros Hx. revert l'. induction l as [|y tl IH]; intros l' H; simpl in H; [discriminate|].
  destruct (decide (y = x)) as [->|Hne].
  - injection H as <-. rewrite (filter_cons_False _ x tl Hx). reflexivity.
  - destruct (py_remove x tl) as [tl'|]; [|discriminate].
    injection H as <-. rewrite !filter_cons. rewrite (IH tl' eq_refl). reflexivity.
Qed.

Lemma turn_of_filter_untagged i m l m' l' :
  turn_of i m l m' l' -> keyed m -> filter untagged l' = filter untagged l.
Proof.
  destruct 1; intros Hm; try reflexivity.
  - eapply py_remove_filter_untagged; [|eassumption].
    unfold untagged. erewrite Hm by eassumption. discriminate.
  - transitivity (filter untagged l1).
    + eapply py_remove_filter_untagged; [|eassumption].
      unfold untagged. congruence.
    + eapply py_remove_filter_untagged; [|eassumption].
      unfold untagged. erewrite Hm by eassumption. discriminate.
Qed.

(** The records without an id pass through, in order and as often as they
    occur, in the list the call leaves. *)
Lemma resolver_untagged_sublist (expenses : list Obj) :
  filter untagged (left_in (filter_visa_debit_corrections expenses))
  = filter untagged expenses.
Proof.
  unfold filter_visa_debit_corrections.
  destruct (scan_invariant
              (fun _ m l => keyed m /\ filter untagged l = filter untagged expenses))
    with (i := 0%nat) (m := (∅ : gmap string Obj)) (l := expenses)
    as (i' & m' & [_ H] & _); [| |exact H].
  - intros i m l m1 l1 [Hm Hf] Hb. apply body_turn_of in Hb. split.
    + eapply turn_of_keyed; eassumption.
    + rewrite <- Hf. eapply turn_of_filter_untagged; eassumption.
  - split; [apply keyed_empty|reflexivity].
Qed.

(** C8: the resolver never removes a record whose [visa_debit_id] is [None].
    Every such record of the input is in the list the call leaves, the same
    object with the same attributes, whether the call returns or
    [str(expense)] raises on a record with an id and no calendar date; and
    when every record with an id has a calendar date the call returns, with
    the record in its output. *)
Theorem resolver_keeps_records_without_id (expenses : list Obj) (e : Obj) :
  e ∈ expenses ->
  visa_debit_id (val e) = None ->
  e ∈ left_in (filter_visa_debit_corrections expenses) /\
  (Forall (fun o => tag_dated o = true) expenses ->
   exists out, filter_visa_debit_corrections expenses = Returned out /\ e ∈ out).
Proof.
  intros Hin Hid.
  assert (He : e ∈ left_in (filter_visa_debit_corrections expenses)).
  { assert (He : e ∈ filter untagged expenses)
      by (apply list_elem_of_filter; split; assumption).
    rewrite <- resolver_untagged_sublist in He.
    apply list_elem_of_filter in He as [_ He]. exact He. }
  split; [exact He|]. intros Hall.
  destruct (scan_returns 0 ∅ expenses Hall) as [out Hout].
  exists out. split; [exact Hout|].
  unfold filter_visa_debit_corrections in He. rewrite Hout in He. exact He.
Qed.

Lemma NoDup_lookup_drop {A} (l : list A) (i : nat) (x : A) :
  NoDup l -> l !! i = Some x -> x ∉ drop (S i) l.
Proof.
  intros Hnd Hi Hin. rewrite <- (take_drop_middle l i x Hi) in Hnd.
  apply NoDup_app in Hnd as (_ & _ & Hnd). apply NoDup_cons in Hnd as [Hn _].
  exact (Hn Hin).
Qed.

Lemma lookup_elem_of_drop {A} (l : list A) (i : nat) (x : A) :
  l !! i = Some x -> x ∈ drop i l.
Proof. intros Hi. rewrite (drop_S l x i Hi). left. Qed.

(** A record whose id no other record of the list carries is never paired. *)
Section Unpaired.
Variables (expenses : list Obj) (y : Obj) (Y : string).
Hypothesis distinct : NoDup expenses.
Hypothesis y_in : y ∈ expenses.
Hypothesis y_id : visa_debit_id (val y) = Some Y.
Hypothesis y_only : forall e, e ∈ expenses -> visa_debit_id (val e) = Some Y -> e = y.

Definition unpaired_inv (i : nat) (m : gmap string Obj) (l : list Obj) : Prop :=
  l `sublist_of` expenses /\ keyed m /\ y ∈ l /\
  (is_Some (m !! Y) -> y ∉ drop i l).

Lemma unpaired_inv_turn i m l m' l' :
  unpaired_inv i m l -> turn_of i m l m' l' -> unpaired_inv (S i) m' l'.
Proof.
  intros (Hsub & Hkey & Hy & Hdrop) Ht.
  assert (Hkey' : keyed m') by (eapply turn_of_keyed; eassumption).
  assert (Hsub' : l' `sublist_of` expenses)
    by (etransitivity; [eapply turn_of_sublist; eassumption|exact Hsub]).
  assert (Hcur : forall e k, l !! i = Some e -> visa_debit_id (val e) = Some k ->
                             is_Some (m !! k) -> y ≠ e /\ k ≠ Y).
  { intros e k Hi Hk Hsome.
    assert (Hne : k ≠ Y).
    { intros ->. apply (Hdrop Hsome).
      rewrite <- (y_only e); [apply lookup_elem_of_drop, Hi| |exact Hk].
      eapply elem_of_sublist; [eapply list_elem_of_lookup_2, Hi|exact Hsub]. }
    split; [|exact Hne]. intros <-. congruence. }
  destruct Ht as [e He Hid|e k He Hid Hm|e k first He Hid Hm H1
                 |e k first l1 He Hid Hm H1 H2|e k first l1 l2 He Hid Hm H1 H2].
  - repeat split; try assumption.
    intros Hs Hin. apply (Hdrop Hs), elem_of_drop_S, Hin.
  - repeat split; try assumption.
    intros Hs Hin. destruct (decide (k = Y)) as [->|Hne].
    + assert (e = y) as ->.
      { apply y_only; [|exact Hid].
        eapply elem_of_sublist; [eapply list_elem_of_lookup_2, He|exact Hsub]. }
      eapply NoDup_lookup_drop; [|exact He|exact Hin].
      eapply sublist_NoDup; [exact distinct|exact Hsub].
    + rewrite lookup_insert_ne in Hs by exact Hne.
      apply (Hdrop Hs), elem_of_drop_S, Hin.
  - repeat split; try assumption.
    intros Hs Hin. apply (Hdrop Hs), elem_of_drop_S, Hin.
  - destruct (Hcur e k He Hid (mk_is_Some _ _ Hm)) as [Hye HkY].
    assert (Hyf : y ≠ first).
    { intros <-. apply Hkey in Hm. congruence. }
    repeat split; try assumption.
    + eapply py_remove_other; eassumption.
    + intros Hs Hin. apply (Hdrop Hs), elem_of_drop_S.
      eapply py_remove_drop; eassumption.
  - destruct (Hcur e k He Hid (mk_is_Some _ _ Hm)) as [Hye HkY].
    assert (Hyf : y ≠ first).
    { intros <-. apply Hkey in Hm. congruence. }
    repeat split; try assumption.
    + eapply py_remove_other; [eassumption|exact Hye|].
      eapply py_remove_other; eassumption.
    + intros Hs Hin. apply (Hdrop Hs), elem_of_drop_S.
      eapply py_remove_drop; [exact H1|].
      eapply py_remove_drop; eassumption.
Qed.

Lemma resolver_keeps_unpaired :
  y ∈ left_in (filter_visa_debit_corrections expenses).
Proof.
  unfold filter_visa_debit_corrections.
  destruct (scan_invariant unpaired_inv)
    with (i := 0%nat) (m := (∅ : gmap string Obj)) (l := expenses)
    as (i' & m' & (_ & _ & H & _) & _); [| |exact H].
  - intros i m l m1 l1 Hinv Hb. eapply unpaired_inv_turn; [exact Hinv|].
    apply body_turn_of, Hb.
  - repeat split; [reflexivity|apply keyed_empty|exact y_in|].
    rewrite lookup_empty. intros [? ?]. discriminate.
Qed.
End Unpaired.

(** The ids carried by a run of records, and the dictionary after the loop
    has met a run in which no id repeats. *)
Definition tags (l : list Obj) : list string :=
  omap (fun o => visa_debit_id (val o)) l.

Definition note (m : gmap string Obj) (e : Obj) : gmap string Obj :=
  match visa_debit_id (val e) with
  | Some k => <[k := e]> m
  | None => m
  end.

Lemma tags_app a b : tags (a ++ b) = tags a ++ tags b.
Proof. apply omap_app. Qed.

Lemma tags_elem e k l : e ∈ l -> visa_debit_id (val e) = Some k -> k ∈ tags l.
Proof. intros Hin Hk. apply list_elem_of_omap. exists e. split; assumption. Qed.

Lemma foldl_note_other (b : list Obj) m k :
  k ∉ tags b -> foldl note m b !! k = m !! k.
Proof.
  revert m. induction b as [|e b IH]; intros m Hk; [reflexivity|].
  simpl. rewrite IH.
  - unfold note. destruct (visa_debit_id (val e)) as [k'|] eqn:He; [|reflexivity].
    apply lookup_insert_ne. intros ->. apply Hk.
    eapply tags_elem; [left|exact He].
  - intros Hin. apply Hk. unfold tags in *. simpl.
    destruct (visa_debit_id (val e)); [right|]; exact Hin.
Qed.

(** While no id repeats and the records can be printed, the loop only
    fills the dictionary. *)
Lemma scan_fresh (todo done : list Obj) m (rest : list Obj) :
  NoDup (tags (done ++ todo)) ->
  Forall (fun o => tag_dated o = true) todo ->
  (forall k, is_Some (m !! k) -> k ∈ tags done) ->
  scan (List.length done) m (done ++ todo ++ rest) =
  scan (List.length (done ++ todo)) (foldl note m todo) (done ++ todo ++ rest).
Proof.
  revert done m. induction todo as [|e todo IH]; intros done m Hnd Hok Hm.
  - rewrite app_nil_r. reflexivity.
  - apply Forall_cons in Hok as [He_ok Hok].
    rewrite scan_unfold. unfold body.
    change ((e :: todo) ++ rest) with (e :: (todo ++ rest)).
    rewrite (list_lookup_middle done (todo ++ rest) e (List.length done) eq_refl).
    assert (Hnext : scan (S (List.length done)) (note m e) (done ++ (e :: todo) ++ rest) =
                    scan (List.length (done ++ e :: todo)) (foldl note m (e :: todo))
                      (done ++ (e :: todo) ++ rest)).
    { replace (S (List.length done)) with (List.length (done ++ [e]))
        by (rewrite length_app; simpl; lia).
      replace (done ++ (e :: todo) ++ rest) with ((done ++ [e]) ++ todo ++ rest)
        by (rewrite <- app_assoc; reflexivity).
      replace (done ++ e :: todo) with ((done ++ [e]) ++ todo)
        by (rewrite <- app_assoc; reflexivity).
      apply IH.
      - rewrite <- app_assoc. exact Hnd.
      - exact Hok.
      - intros k Hs. rewrite tags_app. apply elem_of_app. unfold note in Hs.
        destruct (visa_debit_id (val e)) as [k'|] eqn:He.
        + destruct (decide (k' = k)) as [->|Hne].
          * right. unfold tags. simpl. rewrite He. left.
          * rewrite lookup_insert_ne in Hs by exact Hne. left. apply Hm, Hs.
        + left. apply Hm, Hs. }
    simpl in Hnext |- *. unfold note in Hnext at 1. unfold tag_dated in He_ok.
    destruct (visa_debit_id (val e)) as [k|] eqn:He; [|exact Hnext].
    rewrite He_ok.
    destruct (m !! k) as [first|] eqn:Hk; [|exact Hnext].
    exfalso. rewrite tags_app in Hnd. apply NoDup_app in Hnd as (_ & Hd & _).
    apply (Hd k); [apply Hm; rewrite Hk; eexists; reflexivity|].
    eapply tags_elem; [left|exact He].
Qed.

(** C4, first half as the code has it: when no id repeats among the records
    in front of the correction, the purchase and its correction both go. *)
Lemma resolver_removes_pair (pre mid post : list Obj) (p c : Obj) (X : string) :
  NoDup (pre ++ p :: mid ++ c :: post) ->
  NoDup (tags (pre ++ p :: mid)) ->
  Forall (fun o => tag_dated o = true) (pre ++ p :: mid ++ c :: post) ->
  visa_debit_id (val p) = Some X ->
  visa_debit_id (val c) = Some X ->
  (p ∉ left_in (filter_visa_debit_corrections (pre ++ p :: mid ++ c :: post))) /\
  (c ∉ left_in (filter_visa_debit_corrections (pre ++ p :: mid ++ c :: post))).
Proof.
  intros Hnd Htags Hok Hp Hc.
  assert (Hfacts : (p ∉ pre) /\ (p ∉ mid) /\ p ≠ c /\ (p ∉ post) /\
                   (c ∉ pre) /\ (c ∉ mid) /\ (c ∉ post)).
  { apply NoDup_app in Hnd as (_ & Hpre & Hnd).
    apply NoDup_cons in Hnd as [Hp' Hnd].
    apply NoDup_app in Hnd as (_ & Hmid & Hnd).
    apply NoDup_cons in Hnd as [Hc' _].
    repeat split.
    - intros Hin. apply (Hpre p Hin). left.
    - intros Hin. apply Hp', elem_of_app. left. exact Hin.
    - intros ->. apply Hp', elem_of_app. right. left.
    - intros Hin. apply Hp', elem_of_app. right. right. exact Hin.
    - intros Hin. apply (Hpre c Hin). right. apply elem_of_app. right. left.
    - intros Hin. apply (Hmid c Hin). left.
    - exact Hc'. }
  destruct Hfacts as (Hp1 & Hp2 & Hpc & Hp3 & Hc1 & Hc2 & Hc3).
  assert (Hok1 : Forall (fun o => tag_dated o = true) (pre ++ p :: mid) /\
                 str_ok c = true).
  { replace (pre ++ p :: mid ++ c :: post) with ((pre ++ p :: mid) ++ c :: post) in Hok
      by (rewrite <- app_assoc; reflexivity).
    apply Forall_app in Hok as [H1 H2]. split; [exact H1|].
    apply Forall_cons in H2 as [H2 _]. unfold tag_dated in H2.
    rewrite Hc in H2. exact H2. }
  destruct Hok1 as [Hok1 Hcok].
  set (l := pre ++ p :: mid ++ c :: post).
  set (m := foldl note ∅ (pre ++ p :: mid)).
  assert (Hscan : filter_visa_debit_corrections l =
                  scan (S (List.length (pre ++ p :: mid))) m (pre ++ mid ++ post)).
  { unfold filter_visa_debit_corrections, l.
    replace (pre ++ p :: mid ++ c :: post) with ([] ++ (pre ++ p :: mid) ++ c :: post)
      by (simpl; rewrite <- app_assoc; reflexivity).
    change 0%nat with (List.length (@nil Obj)).
    rewrite scan_fresh.
    - simpl. fold m. rewrite scan_unfold. unfold body.
      rewrite (list_lookup_middle (pre ++ p :: mid) post c _ eq_refl).
      rewrite Hc.
      assert (Hm : m !! X = Some p).
      { unfold m. rewrite foldl_app. simpl. rewrite foldl_note_other.
        - unfold note at 1. rewrite Hp. apply lookup_insert_eq.
        - intros Hin. rewrite tags_app in Htags.
          apply NoDup_app in Htags as (_ & _ & Htags).
          unfold tags in Htags. simpl in Htags. rewrite Hp in Htags.
          apply NoDup_cons in Htags as [Hn _]. exact (Hn Hin). }
      rewrite Hm, Hcok.
      replace ((pre ++ p :: mid) ++ c :: post) with (pre ++ p :: (mid ++ c :: post))
        by (rewrite <- app_assoc; reflexivity).
      rewrite (py_remove_app p pre (mid ++ c :: post) Hp1).
      replace (pre ++ mid ++ c :: post) with ((pre ++ mid) ++ c :: post)
        by (rewrite <- app_assoc; reflexivity).
      rewrite (py_remove_app c (pre ++ mid) post).
      + rewrite <- app_assoc. reflexivity.
      + intros Hin. apply elem_of_app in Hin as [Hin|Hin]; [exact (Hc1 Hin)|exact (Hc2 Hin)].
    - simpl. exact Htags.
    - exact Hok1.
    - intros k Hs. rewrite lookup_empty in Hs. destruct Hs as [? Hs]. discriminate. }
  rewrite Hscan.
  split; intros Hin; eapply elem_of_sublist in Hin; try apply scan_sublist;
    repeat (apply elem_of_app in Hin as [Hin|Hin]); tauto.
Qed.

Import Samples.

(** C3, at the input that breaks it: two purchase/correction pairs in a
    row, every record with a calendar date.  Removing the first pair moves
    the second one under the iterator's index, so the first pass returns
    with the second pair still in, and only a second pass removes it. *)
Theorem resolver_second_pass_removes_more :
  Forall (fun o => exists d, date (val o) = DDate d)
    [purchase 1 "111"; correction 2 "111"; purchase 3 "222"; correction 4 "222"] /\
  exists once twice,
    filter_visa_debit_corrections
      [purchase 1 "111"; correction 2 "111"; purchase 3 "222"; correction 4 "222"]
    = Returned once /\
    filter_visa_debit_corrections once = Returned twice /\
    once = [purchase 3 "222"; correction 4 "222"] /\
    twice = [] /\
    twice <> once.
Proof.
  split.
  - repeat constructor; eexists; reflexivity.
  - exists [purchase 3 "222"; correction 4 "222"], [].
    split; [vm_compute; reflexivity|]. split; [vm_compute; reflexivity|].
    repeat split. discriminate.
Qed.

(** C4 as stated fails by design in two ways, on records with calendar
    dates.  A correction that follows a purchase with its id stays when it
    is the third record with that id: the first two were paired, and the
    [ValueError] of the failed removal is caught.  A purchase with no later
    record with its id goes when an earlier record carries the id. *)
Lemma resolver_pairs_only_the_first_two :
  Forall (fun o => exists d, date (val o) = DDate d)
    [purchase 1 "111"; purchase 2 "111"; plain 3; plain 4; correction 5 "111";
     correction 6 "222"; purchase 7 "222"] /\
  filter_visa_debit_corrections
    [purchase 1 "111"; purchase 2 "111"; plain 3; plain 4; correction 5 "111"]
  = Returned [plain 3; plain 4; correction 5 "111"] /\
  filter_visa_debit_corrections [correction 6 "222"; purchase 7 "222"] = Returned [].
Proof.
  split; [|split].
  - repeat constructor; eexists; reflexivity.
  - vm_compute. reflexivity.
  - vm_compute. reflexivity.
Qed.

(** C4 as the code has it.  For a list of distinct records in which every
    record with an id has a calendar date, the call returns, and in its
    output: a purchase and a later correction with its id are both gone
    when no id repeats among the records in front of the correction; and a
    purchase whose id no other record carries is there, with [reversal]
    still [False]. *)
Theorem resolver_pairs_and_keeps (expenses : list Obj) :
  NoDup expenses ->
  Forall (fun o => tag_dated o = true) expenses ->
  exists out,
    filter_visa_debit_corrections expenses = Returned out /\
    (forall pre p mid c post X,
        expenses = pre ++ p :: mid ++ c :: post ->
        NoDup (tags (pre ++ p :: mid)) ->
        visa_debit_id (val p) = Some X -> reversal (val p) = false ->
        visa_debit_id (val c) = Some X -> reversal (val c) = true ->
        (p ∉ out) /\ (c ∉ out)) /\
    (forall y Y,
        y ∈ expenses ->
        visa_debit_id (val y) = Some Y -> reversal (val y) = false ->
        (forall e, e ∈ expenses -> visa_debit_id (val e) = Some Y -> e = y) ->
        (y ∈ out) /\ reversal (val y) = false).
Proof.
  intros Hnd Hok.
  destruct (scan_returns 0 ∅ expenses Hok) as [out Hout].
  exists out. split; [exact Hout|]. split.
  - intros pre p mid c post X Heq Htags Hp _ Hc _. subst expenses.
    pose proof (resolver_removes_pair pre mid post p c X Hnd Htags Hok Hp Hc) as H.
    unfold filter_visa_debit_corrections in H. rewrite Hout in H. exact H.
  - intros y Y Hy Hid Hrev Honly. split; [|exact Hrev].
    pose proof (resolver_keeps_unpaired expenses y Y Hnd Hy Hid Honly) as H.
    unfold filter_visa_debit_corrections in H. rewrite Hout in H. exact H.
Qed.

End ResolverFacts.

Lemma resolver_keeps_records_without_id_witness :
  Samples.plain 2
  ∈ Resolver.left_in
      (Resolver.filter_visa_debit_corrections
         [Samples.purchase 1 "111"; Samples.plain 2; Samples.correction 3 "111"]) /\
  exists out,
    Resolver.filter_visa_debit_corrections
      [Samples.purchase 1 "111"; Samples.plain 2; Samples.correction 3 "111"]
    = Resolver.Returned out /\ Samples.plain 2 ∈ out.
Proof.
  destruct (resolver_keeps_records_without_id
              [Samples.purchase 1 "111"; Samples.plain 2; Samples.correction 3 "111"]
              (Samples.plain 2)) as [Hleft Hreturns].
  - right. left.
  - reflexivity.
  - split; [exact Hleft|]. apply Hreturns. repeat constructor.
Defined.

Lemma resolver_pairs_and_keeps_witness :
  exists out,
    Resolver.filter_visa_debit_corrections
      [Samples.plain 1; Samples.purchase 2 "111"; Samples.plain 3;
       Samples.correction 4 "111"; Samples.purchase 5 "222"]
    = Resolver.Returned out /\
    ((Samples.purchase 2 "111" ∉ out) /\ (Samples.correction 4 "111" ∉ out)) /\
    ((Samples.purchase 5 "222" ∈ out) /\
     reversal (Resolver.val (Samples.purchase 5 "222")) = false).
Proof.
  assert (Hnd : NoDup [Samples.plain 1; Samples.purchase 2 "111"; Samples.plain 3;
                       Samples.correction 4 "111"; Samples.purchase 5 "222"])
    by (apply (bool_decide_unpack _); vm_compute; exact I).
  assert (Hok : Forall (fun o => tag_dated o = true)
                  [Samples.plain 1; Samples.purchase 2 "111"; Samples.plain 3;
                   Samples.correction 4 "111"; Samples.purchase 5 "222"])
    by (repeat constructor).
  destruct (resolver_pairs_and_keeps _ Hnd Hok) as (out & Hout & Hpair & Hkeep).
  exists out. split; [exact Hout|]. split.
  - apply (Hpair [Samples.plain 1] (Samples.purchase 2 "111") [Samples.plain 3]
             (Samples.correction 4 "111") [Samples.purchase 5 "222"] "111");
      try reflexivity.
    apply (bool_decide_unpack _); vm_compute; exact I.
  - apply (Hkeep (Samples.purchase 5 "222") "222"); try reflexivity.
    + do 4 right. left.
    + intros e He Hid.
      repeat (apply elem_of_cons in He as [->|He]); try discriminate Hid;
        try reflexivity.
      apply elem_of_nil in He. destruct He.
Defined.

(** ** Regular expressions: what a match can consume *)

Section RegexFacts.
Import Re.

(** The characters some leaf of the pattern accepts. *)
Fixpoint alphabet (r : regex) (c : ascii) : bool :=
  match r with
  | Chr p => p c
  | Bol | Eol | Eps => false
  | Seq a b | Alt a b => alphabet a c || alphabet b c
  | Rep _ _ a | Plus a | Group _ a => alphabet a c
  end.

(** A successful run of [r] reads a prefix made of characters of its
    alphabet and hands the rest to the continuation. *)
Lemma exec_consumes (r : regex) :
  forall bol w caps (k : cont) o,
    exec r bol w caps k = Some o ->
    exists w1 w2 bol' caps',
      w = w1 ++ w2 /\ Forall (fun c => alphabet r c = true) w1 /\
      k bol' w2 caps' = Some o.
Proof.
  induction r as [p| | | |a IHa b IHb|a IHa b IHb|lo hi a IHa|a IHa|n a IHa];
    intros bol w caps k o H; simpl in H.
  - destruct w as [|c w']; [discriminate|].
    destruct (p c) eqn:Hp; [|discriminate].
    exists [c], w', false, caps. repeat split; [|exact H].
    constructor; [exact Hp|constructor].
  - destruct bol; [|discriminate]. exists [], w, true, caps.
    repeat split; [constructor|exact H].
  - exists [], w, bol, caps. repeat split; [constructor|].
    destruct w as [|c [|c' w']]; [exact H| |discriminate].
    destruct (Ascii.eqb c "010"); [exact H|discriminate].
  - exists [], w, bol, caps. repeat split; [constructor|exact H].
  - apply IHa in H as (w1 & w2 & b1 & c1 & -> & Hf1 & H).
    apply IHb in H as (w3 & w4 & b2 & c2 & -> & Hf2 & H).
    exists (w1 ++ w3), w4, b2, c2. rewrite app_assoc. repeat split; [|exact H].
    apply Forall_app. split; eapply Forall_impl; try eassumption;
      simpl; intros c Hc; rewrite Hc; [reflexivity|apply orb_true_r].
  - unfold orelse in H. destruct (exec a bol w caps k) eqn:Ha.
    + injection H as ->. apply IHa in Ha as (w1 & w2 & b1 & c1 & -> & Hf1 & H).
      exists w1, w2, b1, c1. repeat split; [|exact H].
      eapply Forall_impl; [exact Hf1|]. simpl. intros c Hc. rewrite Hc. reflexivity.
    + apply IHb in H as (w1 & w2 & b1 & c1 & -> & Hf1 & H).
      exists w1, w2, b1, c1. repeat split; [|exact H].
      eapply Forall_impl; [exact Hf1|]. simpl. intros c Hc. rewrite Hc.
      apply orb_true_r.
  - revert lo bol w caps H. induction hi as [|hi IHhi]; intros lo bol w caps H.
    + exists [], w, bol, caps. repeat split; [constructor|exact H].
    + destruct lo as [|lo].
      * unfold orelse in H.
        match type of H with
        | match ?x with _ => _ end = _ => destruct x eqn:Hx
        end.
        -- injection H as ->. apply IHa in Hx as (w1 & w2 & b1 & c1 & -> & Hf1 & H).
           apply IHhi in H as (w3 & w4 & b2 & c2 & -> & Hf2 & H).
           exists (w1 ++ w3), w4, b2, c2. rewrite app_assoc. repeat split; [|exact H].
           apply Forall_app. split; assumption.
        -- exists [], w, bol, caps. repeat split; [constructor|exact H].
      * apply IHa in H as (w1 & w2 & b1 & c1 & -> & Hf1 & H).
        apply IHhi in H as (w3 & w4 & b2 & c2 & -> & Hf2 & H).
        exists (w1 ++ w3), w4, b2, c2. rewrite app_assoc. repeat split; [|exact H].
        apply Forall_app. split; assumption.
  - remember (List.length w) as fuel eqn:Hfuel. clear Hfuel.
    revert bol w caps H. induction fuel as [|fuel IHfuel]; intros bol w caps H.
    + apply IHa in H as (w1 & w2 & b1 & c1 & -> & Hf1 & H).
      exists w1, w2, b1, c1. repeat split; assumption.
    + apply IHa in H as (w1 & w2 & b1 & c1 & -> & Hf1 & H).
      destruct (Nat.eqb (List.length w2) (List.length (w1 ++ w2))).
      * exists w1, w2, b1, c1. repeat split; assumption.
      * unfold orelse in H.
        match type of H with
        | match ?x with _ => _ end = _ => destruct x eqn:Hx
        end.
        -- injection H as ->. apply IHfuel in Hx as (w3 & w4 & b2 & c2 & -> & Hf2 & H).
           exists (w1 ++ w3), w4, b2, c2. rewrite app_assoc.
           repeat split; [|exact H]. apply Forall_app. split; assumption.
        -- exists w1, w2, b1, c1. repeat split; assumption.
  - apply IHa in H as (w1 & w2 & b1 & c1 & -> & Hf1 & H).
    eexists w1, w2, b1, _. repeat split; [exact Hf1|exact H].
Qed.







End RegexFacts.

(** ** The page scanners *)

Import Py Parsers.

(** Closes [x ∉ [a; b; ...]] for literal lines. *)
Ltac not_in_list :=
  let H := fresh in
  intros H;
  repeat (apply elem_of_cons in H as [H|H]; [discriminate H|]);
  apply elem_of_nil in H; destruct H.

Section PageFacts.

(** A line that is not the header, read before the header was seen, leaves
    the scan as it is. *)
Lemma page_step_before_header (F : Format) (s : Scan) (n : Z) (line_item : string) :
  found_start s = false ->
  line_item <> start_of_items F ->
  page_step F s n line_item = Ok s.
Proof.
  intros Hf Hne. unfold page_step.
  destruct (String.eqb_spec line_item (start_of_items F)) as [->|_]; [congruence|].
  rewrite Hf. reflexivity.
Qed.

Lemma page_loop_before_header (F : Format) (pre rest : list string) (s : Scan) (n : Z) :
  found_start s = false ->
  start_of_items F ∉ pre ->
  page_loop F s n (pre ++ rest) = page_loop F s (n + Z.of_nat (List.length pre)) rest.
Proof.
  intros Hf. revert n. induction pre as [|x pre IH]; intros n Hpre; simpl.
  - f_equal. lia.
  - rewrite page_step_before_header; [|exact Hf|].
    + simpl. rewrite IH.
      * f_equal. lia.
      * intros Hin. apply Hpre. right. exact Hin.
    + intros ->. apply Hpre. left.
Qed.


(** The outer loop of Format B, one turn unfolded. *)
Lemma loop_unfold (c : VISAAvionUnlimited.Cursor) :
  VISAAvionUnlimited.loop c =
  match VISAAvionUnlimited.line_item c with
  | None => Ok c
  | Some current => bind (VISAAvionUnlimited.turn c current) VISAAvionUnlimited.loop
  end.
Proof.
  funelim (VISAAvionUnlimited.loop c);
    try match goal with
        | H : VISAAvionUnlimited.line_item _ = _ |- _ => rewrite H
        end;
    try match goal with
        | H : VISAAvionUnlimited.turn _ _ = _ |- _ => rewrite H
        end; reflexivity.
Qed.

(** The cursor put on the first of [lines]. *)
Definition cursor_on (self : Parser) (found : bool) (n : Z) (lines : list string)
  (previous : string) (processed : list Expense) : VISAAvionUnlimited.Cursor :=
  VISAAvionUnlimited.mkCursor self found n
    (fst (VISAAvionUnlimited.get_next_line lines))
    (snd (VISAAvionUnlimited.get_next_line lines)) previous processed.

Lemma loop_before_header (pre rest : list string) (self : Parser) (n : Z)
  (previous : string) (processed : list Expense) :
  start_of_items VISAAvionUnlimited.format ∉ pre ->
  VISAAvionUnlimited.loop (cursor_on self false n (pre ++ rest) previous processed) =
  VISAAvionUnlimited.loop
    (cursor_on self false (n + Z.of_nat (List.length pre)) rest previous processed).
Proof.
  revert n. induction pre as [|x pre IH]; intros n Hpre.
  - simpl. do 2 f_equal. lia.
  - rewrite loop_unfold. simpl. unfold VISAAvionUnlimited.turn. simpl.
    destruct (String.eqb_spec x
                "TRANSACTION POSTINGACTIVITY DESCRIPTION AMOUNT ($)DATE DATE")
      as [->|_]; [exfalso; apply Hpre; left|].
    simpl. unfold VISAAvionUnlimited.advance. simpl.
    fold (cursor_on self false (n + 1) (pre ++ rest) previous processed).
    rewrite IH.
    + do 2 f_equal. lia.
    + intros Hin. apply Hpre. right. exact Hin.
Qed.

(** C9: in both formats the lines in front of the header marker produce
    nothing.  When the scan reaches the first line after them, the two lists
    are empty, the parser and the previous line are as they were handed in
    (Format B has put [''] for the previous line), and only the line counter
    has moved; a page that ends before any header gives empty lists. *)
Theorem lines_before_header_yield_nothing
  (self : Parser) (pre rest : list string) (previous_line_item : string) :
  (start_of_items MyMainMoney.format ∉ pre ->
   process_page_lines MyMainMoney.format self (pre ++ rest) previous_line_item =
   bind (page_loop MyMainMoney.format (mkScan self false previous_line_item [] [])
           (1 + Z.of_nat (List.length pre)) rest)
     (fun s => Ok (page_result s))) /\
  (start_of_items VISAAvionUnlimited.format ∉ pre ->
   forall first itr, rest = first :: itr ->
   VISAAvionUnlimited.process_page_lines self (pre ++ rest) previous_line_item =
   bind (VISAAvionUnlimited.loop
           (VISAAvionUnlimited.mkCursor self false (1 + Z.of_nat (List.length pre))
              (Some first) itr "" []))
     (fun c => Ok (VISAAvionUnlimited.cursor_result c))) /\
  (start_of_items VISAAvionUnlimited.format ∉ pre -> pre <> [] ->
   VISAAvionUnlimited.process_page_lines self pre previous_line_item =
   Ok ([], [], "", self)).
Proof.
  split; [|split].
  - intros Hpre. unfold process_page_lines.
    rewrite page_loop_before_header; [reflexivity|reflexivity|exact Hpre].
  - intros Hpre first itr ->. unfold VISAAvionUnlimited.process_page_lines.
    destruct pre as [|x pre]; [reflexivity|]. simpl.
    change (VISAAvionUnlimited.mkCursor self false 1 (Some x) (pre ++ first :: itr) "" [])
      with (cursor_on self false 1 ((x :: pre) ++ first :: itr) "" []).
    rewrite loop_before_header by exact Hpre. reflexivity.
  - intros Hpre Hne. unfold VISAAvionUnlimited.process_page_lines.
    destruct pre as [|x pre]; [congruence|].
    change (VISAAvionUnlimited.mkCursor self false 1 (Some x) pre "" [])
      with (cursor_on self false 1 (x :: pre) "" []).
    rewrite <- (app_nil_r (x :: pre)).
    rewrite loop_before_header by exact Hpre.
    rewrite loop_unfold. reflexivity.
Qed.

(** C5, Format B at the inputs that break it: on a page without the header
    the previous line handed in is replaced by [''], and an empty page
    raises [StopIteration]; the scanner shared with Format A hands the
    previous line back on the same page. *)
Theorem visa_page_without_header_loses_previous_line :
  VISAAvionUnlimited.process_page_lines Samples.sample_parser
    ["Page 2 of 3"; "Important information"] "carried over"
  = Ok ([], [], "", Samples.sample_parser) /\
  VISAAvionUnlimited.process_page_lines Samples.sample_parser [] "carried over"
  = Raise StopIteration /\
  process_page_lines MyMainMoney.format Samples.sample_parser
    ["Page 2 of 3"; "Important information"] "carried over"
  = Ok ([], [], "carried over", Samples.sample_parser).
Proof. repeat split; vm_compute; reflexivity. Qed.

(** C1, Format B at the inputs that break it: a December line before any
    date is set leaves the tracked year at 2023, and the January line after
    it leaves it there too, because [current_date] is assigned before the
    two checks read it.  Format A moves the year on both lines. *)
Theorem visa_tracked_year_never_moves :
  (exists self1 self2,
      VISAAvionUnlimited.track_date Samples.sample_parser "DEC 28 DEC 29 OVERLIMIT FEE"
      = Ok self1 /\
      current_date self1 = Some (mkDate 2023 12 28) /\ current_year self1 = 2023 /\
      VISAAvionUnlimited.track_date self1 "JAN 03 JAN 04 OVERLIMIT FEE" = Ok self2 /\
      current_date self2 = Some (mkDate 2023 1 3) /\ current_year self2 = 2023) /\
  (exists self1 self2,
      MyMainMoney.track_date Samples.sample_parser "28 Dec COFFEE SHOP 4.50" = Ok self1 /\
      current_year self1 = 2022 /\
      MyMainMoney.track_date self1 "3 Jan COFFEE SHOP 4.50" = Ok self2 /\
      current_year self2 = 2023).
Proof.
  split.
  - eexists. eexists. split; [vm_compute; reflexivity|].
    split; [reflexivity|]. split; [reflexivity|].
    split; [vm_compute; reflexivity|]. split; reflexivity.
  - eexists. eexists. split; [vm_compute; reflexivity|].
    split; [reflexivity|]. split; [vm_compute; reflexivity|]. reflexivity.
Qed.

(** C2, at its own input: for the statement dated 2023-01-05 the first dated
    line "28 Dec" sets the tracked year to 2022, but the date it sets, and
    the date of the record the line produces, is 2023-12-28: the date was
    built before the year was decremented. *)
Theorem first_december_line_keeps_statement_year :
  (exists self1,
      MyMainMoney.track_date Samples.sample_parser "28 Dec" = Ok self1 /\
      current_year self1 = 2022 /\
      current_date self1 = Some (mkDate 2023 12 28)) /\
  (exists e last self1,
      process_page_lines MyMainMoney.format Samples.sample_parser
        [start_of_items MyMainMoney.format; "28 Dec COFFEE SHOP 4.50"] ""
      = Ok ([e], [], last, self1) /\
      date e = DDate (mkDate 2023 12 28) /\
      date e <> DDate (mkDate 2022 12 28) /\
      current_year self1 = 2022).
Proof.
  split.
  - eexists. split; [vm_compute; reflexivity|]. split; reflexivity.
  - eexists. eexists. eexists. split; [vm_compute; reflexivity|].
    split; [reflexivity|]. split; [discriminate|reflexivity].
Qed.




(** A record whose date the scanner had to fill in. *)
Definition blank_expense (y : Z) (e : Expense) : Prop :=
  date e = DStr "" /\ year e = Some y.





(** The inner loop of Format B, from its first turn. *)
Lemma lookahead_from_1 (itr : list string) :
  VISAAvionUnlimited.lookahead 1 itr =
  match itr with
  | [] => Raise TypeError_search_None
  | l1 :: t1 =>
      match VISAAvionUnlimited.dollar_amount l1 with
      | Some a => Ok (Some a, 1%nat, t1)
      | None =>
          match t1 with
          | [] => Raise TypeError_search_None
          | l2 :: t2 =>
              match VISAAvionUnlimited.dollar_amount l2 with
              | Some a => Ok (Some a, 2%nat, t2)
              | None => Ok (None, 3%nat, t2)
              end
          end
      end
  end.
Proof.
  destruct itr as [|l1 t1]; simp lookahead; simpl; [reflexivity|].
  destruct (VISAAvionUnlimited.dollar_amount l1); simpl; [reflexivity|].
  destruct t1 as [|l2 t2]; simp lookahead; simpl; [reflexivity|].
  destruct (VISAAvionUnlimited.dollar_amount l2); simpl; [reflexivity|].
  simp lookahead. reflexivity.
Qed.

(** A turn of Format B on a line after the header that matched a category
    with a label that is not empty: the lookahead decides. *)
Lemma turn_on_matched_line (c : VISAAvionUnlimited.Cursor) (current : string)
  (self' : Parser) (expense : Expense) :
  VISAAvionUnlimited.found_start c = true ->
  current <> start_of_items VISAAvionUnlimited.format ->
  VISAAvionUnlimited.process_line (VISAAvionUnlimited.self c)
    (VISAAvionUnlimited.line_number c) current
    (VISAAvionUnlimited.previous_line_item c)
  = Ok (self', Some (IExpense expense)) ->
  line expense <> "" ->
  VISAAvionUnlimited.turn c current =
  bind (VISAAvionUnlimited.lookahead 1 (VISAAvionUnlimited.line_items_itr c))
    (fun found =>
       let '(found_amount, amount_lines_processed, itr) := found in
       match found_amount with
       | None =>
           Raise (ValueError_no_amount_on_line (VISAAvionUnlimited.line_number c))
       | Some a =>
           Ok (VISAAvionUnlimited.advance c self' true
                 (Z.of_nat amount_lines_processed + 1) current
                 (VISAAvionUnlimited.processed_lines c
                    ++ [VISAAvionUnlimited.set_amount
                          (VISAAvionUnlimited.backfill_date expense) a]) itr)
       end).
Proof.
  intros Hfound Hne Hline Hlabel. unfold VISAAvionUnlimited.turn.
  destruct (String.eqb_spec current (start_of_items VISAAvionUnlimited.format))
    as [->|_]; [congruence|].
  rewrite Hfound, Hline. simpl.
  assert (Hl : line (VISAAvionUnlimited.backfill_date expense) = line expense).
  { unfold VISAAvionUnlimited.backfill_date.
    destruct (truthy (date expense)); reflexivity. }
  rewrite Hl. destruct (line expense) as [|ch rest]; [congruence|]. reflexivity.
Qed.

(** The amount is the field [set_amount] writes, and the only one. *)
Lemma set_amount_fields (e : Expense) (a : Z) :
  amount (VISAAvionUnlimited.set_amount (VISAAvionUnlimited.backfill_date e) a) = a /\
  page (VISAAvionUnlimited.set_amount (VISAAvionUnlimited.backfill_date e) a) = page e /\
  category (VISAAvionUnlimited.set_amount (VISAAvionUnlimited.backfill_date e) a)
  = category e /\
  line (VISAAvionUnlimited.set_amount (VISAAvionUnlimited.backfill_date e) a) = line e /\
  line_number (VISAAvionUnlimited.set_amount (VISAAvionUnlimited.backfill_date e) a)
  = line_number e.
Proof.
  unfold VISAAvionUnlimited.set_amount, VISAAvionUnlimited.backfill_date.
  destruct (truthy (date e)); simpl; repeat split.
Qed.

(** A turn of Format B on a line after the header that matched a category
    with an empty label: nothing is looked at, nothing is recorded. *)
Lemma turn_on_unlabelled_line (c : VISAAvionUnlimited.Cursor) (current : string)
  (self' : Parser) (expense : Expense) :
  VISAAvionUnlimited.found_start c = true ->
  current <> start_of_items VISAAvionUnlimited.format ->
  VISAAvionUnlimited.process_line (VISAAvionUnlimited.self c)
    (VISAAvionUnlimited.line_number c) current
    (VISAAvionUnlimited.previous_line_item c)
  = Ok (self', Some (IExpense expense)) ->
  line expense = "" ->
  VISAAvionUnlimited.turn c current =
  Ok (VISAAvionUnlimited.advance c self' true 1 current
        (VISAAvionUnlimited.processed_lines c) (VISAAvionUnlimited.line_items_itr c)).
Proof.
  intros Hfound Hne Hline Hlabel. unfold VISAAvionUnlimited.turn.
  destruct (String.eqb_spec current (start_of_items VISAAvionUnlimited.format))
    as [->|_]; [congruence|].
  rewrite Hfound, Hline. simpl.
  assert (Hl : line (VISAAvionUnlimited.backfill_date expense) = line expense).
  { unfold VISAAvionUnlimited.backfill_date.
    destruct (truthy (date expense)); reflexivity. }
  rewrite Hl, Hlabel. reflexivity.
Qed.


(** C6 as the code has it, for a line after the header that the scan is on
    and for which [process_line] returns an expense.  With an empty label
    the turn raises nothing, records nothing and reads no lookahead line:
    the scan goes on with the very next line.  With a label and two lines
    after it, the turn raises exactly when neither of the two has a
    trailing amount; the exception is then the [ValueError] of the parser,
    it ends the scan of the page, and the turn raises nothing else; and
    when one of them has an amount the expense is recorded with the amount
    of the first that has. *)
Theorem lookahead_raises_iff_no_amount
  (c : VISAAvionUnlimited.Cursor) (current : string) (self' : Parser)
  (expense : Expense) :
  VISAAvionUnlimited.found_start c = true ->
  current <> start_of_items VISAAvionUnlimited.format ->
  VISAAvionUnlimited.line_item c = Some current ->
  VISAAvionUnlimited.process_line (VISAAvionUnlimited.self c)
    (VISAAvionUnlimited.line_number c) current
    (VISAAvionUnlimited.previous_line_item c)
  = Ok (self', Some (IExpense expense)) ->
  (line expense = "" ->
   VISAAvionUnlimited.turn c current =
   Ok (VISAAvionUnlimited.advance c self' true 1 current
         (VISAAvionUnlimited.processed_lines c)
         (VISAAvionUnlimited.line_items_itr c))) /\
  (line expense <> "" ->
   forall l1 l2 rest,
     VISAAvionUnlimited.line_items_itr c = l1 :: l2 :: rest ->
     ((VISAAvionUnlimited.dollar_amount l1 = None /\
       VISAAvionUnlimited.dollar_amount l2 = None) <->
      VISAAvionUnlimited.turn c current
      = Raise (ValueError_no_amount_on_line (VISAAvionUnlimited.line_number c))) /\
     (VISAAvionUnlimited.dollar_amount l1 = None ->
      VISAAvionUnlimited.dollar_amount l2 = None ->
      VISAAvionUnlimited.loop c
      = Raise (ValueError_no_amount_on_line (VISAAvionUnlimited.line_number c))) /\
     (forall e, VISAAvionUnlimited.turn c current = Raise e ->
                e = ValueError_no_amount_on_line (VISAAvionUnlimited.line_number c)) /\
     (forall a,
         VISAAvionUnlimited.dollar_amount l1 = Some a \/
         (VISAAvionUnlimited.dollar_amount l1 = None /\
          VISAAvionUnlimited.dollar_amount l2 = Some a) ->
         exists c',
           VISAAvionUnlimited.turn c current = Ok c' /\
           VISAAvionUnlimited.processed_lines c'
           = VISAAvionUnlimited.processed_lines c
               ++ [VISAAvionUnlimited.set_amount
                     (VISAAvionUnlimited.backfill_date expense) a] /\
           amount (VISAAvionUnlimited.set_amount
                     (VISAAvionUnlimited.backfill_date expense) a) = a)).
Proof.
  intros Hfound Hne Hcur Hline. split.
  - intros Hlabel. apply (turn_on_unlabelled_line c current self' expense); assumption.
  - intros Hlabel l1 l2 rest Hitr.
    pose proof (turn_on_matched_line c current self' expense Hfound Hne Hline Hlabel)
      as Hturn.
    rewrite lookahead_from_1, Hitr in Hturn.
    destruct (VISAAvionUnlimited.dollar_amount l1) as [a1|] eqn:H1; simpl in Hturn.
    { split; [split; [intros [Hx Hy]|intros Hr]
             |split; [intros Hx Hy|split; [intros e Hr|intros a Ha]]].
      - discriminate Hx.
      - rewrite Hturn in Hr. discriminate Hr.
      - discriminate Hx.
      - rewrite Hturn in Hr. discriminate Hr.
      - destruct Ha as [[= <-]|[Hx _]]; [|discriminate Hx].
        eexists. split; [exact Hturn|]. split; [reflexivity|].
        apply set_amount_fields. }
    destruct (VISAAvionUnlimited.dollar_amount l2) as [a2|] eqn:H2; simpl in Hturn.
    { split; [split; [intros [Hx Hy]|intros Hr]
             |split; [intros Hx Hy|split; [intros e Hr|intros a Ha]]].
      - discriminate Hy.
      - rewrite Hturn in Hr. discriminate Hr.
      - discriminate Hy.
      - rewrite Hturn in Hr. discriminate Hr.
      - destruct Ha as [Hx|[_ [= <-]]]; [discriminate Hx|].
        eexists. split; [exact Hturn|]. split; [reflexivity|].
        apply set_amount_fields. }
    split; [split; [intros [Hx Hy]|intros Hr]
           |split; [intros Hx Hy|split; [intros e Hr|intros a Ha]]].
    + exact Hturn.
    + split; reflexivity.
    + rewrite (loop_unfold c), Hcur, Hturn. reflexivity.
    + rewrite Hturn in Hr. injection Hr as <-. reflexivity.
    + destruct Ha as [Hx|[_ Hx]]; discriminate Hx.
Qed.

(** C6 as stated fails, by design, for matched lines the lookahead never
    gets to.  Where the label of the matched category is empty, the line
    matches a pattern, neither of the next two lines has an amount, and the
    scan goes on without an error and without a record.  And a matched line
    that the lookahead of the line before has taken as its amount line is
    never processed: neither of the two lines after it has an amount, no
    error is raised, and the page returns the one record of the line
    before, with the amount printed on the line that was dropped. *)
Lemma visa_empty_label_is_dropped_silently :
  (find_category Samples.sample_categories "APR 27 APR 28 VOID"
   = Some ("VOID", ("Ignore", "Ignore", "")) /\
   VISAAvionUnlimited.dollar_amount "no amount here" = None /\
   VISAAvionUnlimited.dollar_amount "nor here" = None /\
   exists self',
     VISAAvionUnlimited.process_page_lines Samples.sample_parser
       [start_of_items VISAAvionUnlimited.format; "APR 27 APR 28 VOID";
        "no amount here"; "nor here"] ""
     = Ok ([], [], "nor here", self')) /\
  (find_category Samples.sample_categories "APR 28 APR 29 OVERLIMIT FEE $29.00"
   = Some ("OVERLIMIT FEE", ("Bank", "Fees", "Overlimit fee")) /\
   VISAAvionUnlimited.dollar_amount "no amount here" = None /\
   VISAAvionUnlimited.dollar_amount "nor here" = None /\
   exists record last self',
     VISAAvionUnlimited.process_page_lines Samples.sample_parser
       [start_of_items VISAAvionUnlimited.format; "APR 27 APR 28 COFFEE SHOP";
        "TORONTO ON"; "APR 28 APR 29 OVERLIMIT FEE $29.00";
        "no amount here"; "nor here"] ""
     = Ok ([record], [], last, self') /\
     line record = "Coffee" /\ amount record = 2900).
Proof.
  split.
  - repeat split; try (vm_compute; reflexivity).
    eexists. vm_compute. reflexivity.
  - repeat split; try (vm_compute; reflexivity).
    eexists. eexists. eexists. split; [vm_compute; reflexivity|].
    split; reflexivity.
Qed.

End PageFacts.

Lemma lines_before_header_yield_nothing_witness :
  process_page_lines MyMainMoney.format Samples.sample_parser
    (["Page 1 of 3"; "Account summary"] ++ ["28 Dec COFFEE SHOP 4.50"]) "carried over" =
  bind (page_loop MyMainMoney.format
          (mkScan Samples.sample_parser false "carried over" [] [])
          (1 + Z.of_nat (List.length ["Page 1 of 3"; "Account summary"]))
          ["28 Dec COFFEE SHOP 4.50"])
    (fun s => Ok (page_result s)) /\
  VISAAvionUnlimited.process_page_lines Samples.sample_parser
    (["Page 1 of 3"; "Account summary"] ++ ["DEC 28 DEC 29 OVERLIMIT FEE"])
    "carried over" =
  bind (VISAAvionUnlimited.loop
          (VISAAvionUnlimited.mkCursor Samples.sample_parser false
             (1 + Z.of_nat (List.length ["Page 1 of 3"; "Account summary"]))
             (Some "DEC 28 DEC 29 OVERLIMIT FEE") [] "" []))
    (fun c => Ok (VISAAvionUnlimited.cursor_result c)) /\
  VISAAvionUnlimited.process_page_lines Samples.sample_parser
    ["Page 1 of 3"; "Account summary"] "carried over" =
  Ok ([], [], "", Samples.sample_parser).
Proof.
  split; [|split].
  - apply (lines_before_header_yield_nothing Samples.sample_parser
             ["Page 1 of 3"; "Account summary"] ["28 Dec COFFEE SHOP 4.50"]
             "carried over").
    not_in_list.
  - apply (proj1 (proj2 (lines_before_header_yield_nothing Samples.sample_parser
             ["Page 1 of 3"; "Account summary"] ["DEC 28 DEC 29 OVERLIMIT FEE"]
             "carried over"))); [not_in_list|reflexivity].
  - apply (proj2 (proj2 (lines_before_header_yield_nothing Samples.sample_parser
             ["Page 1 of 3"; "Account summary"] [] "carried over")));
      [not_in_list|discriminate].
Defined.



Lemma lookahead_raises_iff_no_amount_witness :
  VISAAvionUnlimited.loop
    (VISAAvionUnlimited.mkCursor Samples.sample_parser true 2
       (Some "APR 27 APR 28 COFFEE SHOP")
       ["TORONTO ON"; "REF 7312"; "APR 29 APR 30 COFFEE SHOP $3.00"]
       (start_of_items VISAAvionUnlimited.format) [])
  = Raise (ValueError_no_amount_on_line 2).
Proof.
  match eval vm_compute in
        (VISAAvionUnlimited.process_line Samples.sample_parser 2
           "APR 27 APR 28 COFFEE SHOP" (start_of_items VISAAvionUnlimited.format))
  with
  | Ok (?p, Some (IExpense ?e)) =>
      destruct (lookahead_raises_iff_no_amount
                  (VISAAvionUnlimited.mkCursor Samples.sample_parser true 2
                     (Some "APR 27 APR 28 COFFEE SHOP")
                     ["TORONTO ON"; "REF 7312"; "APR 29 APR 30 COFFEE SHOP $3.00"]
                     (start_of_items VISAAvionUnlimited.format) [])
                  "APR 27 APR 28 COFFEE SHOP" p e)
        as [_ Hlabelled];
        [reflexivity|discriminate|reflexivity|vm_compute; reflexivity|]
  end.
  destruct (Hlabelled ltac:(discriminate) "TORONTO ON" "REF 7312"
              ["APR 29 APR 30 COFFEE SHOP $3.00"] eq_refl)
    as (_ & Hloop & _).
  apply Hloop; vm_compute; reflexivity.
Defined.

(** ** More on the resolver *)

(** Once the index is past the end the loop is over. *)
Lemma scan_past_end (i : nat) (m : gmap string Resolver.Obj) (l : list Resolver.Obj) :
  (List.length l <= i)%nat -> Resolver.scan i m l = Resolver.Returned l.
Proof.
  intros Hi. rewrite scan_unfold. unfold Resolver.body.
  rewrite lookup_ge_None_2; [reflexivity|exact Hi].
Qed.

Section ResolverMore.
Import Resolver.

#[local] Existing Instance untagged_dec.

(** X1: The resolver only removes: the list the call leaves, returned or not,
    is the input with some records left out, in the input's order; and the
    call returns when every record with an id has a calendar date. *)
Theorem resolver_output_is_sublist (expenses : list Obj) :
  left_in (filter_visa_debit_corrections expenses) `sublist_of` expenses /\
  (Forall (fun o => tag_dated o = true) expenses ->
   exists out,
     filter_visa_debit_corrections expenses = Returned out /\
     out `sublist_of` expenses).
Proof.
  assert (Hsub : left_in (filter_visa_debit_corrections expenses) `sublist_of` expenses)
    by (unfold filter_visa_debit_corrections; apply scan_sublist).
  split; [exact Hsub|]. intros Hok.
  destruct (scan_returns 0 ∅ expenses Hok) as [out Hout].
  exists out. split; [exact Hout|].
  unfold filter_visa_debit_corrections in Hsub. rewrite Hout in Hsub. exact Hsub.
Qed.

(** X2: The records without a virtual-debit id are in the list the call leaves
    as they went in: all of them, once each, in the same order; and the
    call returns when every record with an id has a calendar date. *)
Theorem resolver_keeps_untagged_in_order (expenses : list Obj) :
  filter untagged (left_in (filter_visa_debit_corrections expenses))
  = filter untagged expenses /\
  (Forall (fun o => tag_dated o = true) expenses ->
   exists out,
     filter_visa_debit_corrections expenses = Returned out /\
     filter untagged out = filter untagged expenses).
Proof.
  assert (Hf : filter untagged (left_in (filter_visa_debit_corrections expenses))
               = filter untagged expenses).
  { unfold filter_visa_debit_corrections.
    destruct (scan_invariant
                (fun _ m l => keyed m /\ filter untagged l = filter untagged expenses))
      with (i := 0%nat) (m := (∅ : gmap string Obj)) (l := expenses)
      as (i' & m' & (_ & H) & _); [| |exact H].
    - intros i m l m1 l1 [Hk Hf] Hb. apply body_turn_of in Hb. split.
      + eapply turn_of_keyed; eassumption.
      + rewrite <- Hf. eapply turn_of_filter_untagged; eassumption.
    - split; [apply keyed_empty|reflexivity]. }
  split; [exact Hf|]. intros Hok.
  destruct (scan_returns 0 ∅ expenses Hok) as [out Hout].
  exists out. split; [exact Hout|].
  unfold filter_visa_debit_corrections in Hf. rewrite Hout in Hf. exact Hf.
Qed.

Lemma body_Next_dated (i : nat) (m m' : gmap string Obj) (l l' : list Obj) :
  body i m l = Next m' l' -> exists e, l !! i = Some e /\ tag_dated e = true.
Proof.
  unfold body. destruct (l !! i) as [e|] eqn:Hi; [|discriminate].
  intros Hb. exists e. split; [reflexivity|]. unfold tag_dated.
  destruct (visa_debit_id (val e)) as [k|]; [|reflexivity].
  destruct (str_ok e); [reflexivity|].
  destruct (m !! k); discriminate.
Qed.

Lemma tags_take_S (l : list Obj) (i : nat) (e : Obj) (k : string) :
  l !! i = Some e -> visa_debit_id (val e) = Some k ->
  tags l = tags (take i l) ++ k :: tags (drop (S i) l).
Proof.
  intros Hi Hk. rewrite <- (take_drop_middle l i e Hi) at 1.
  rewrite tags_app. unfold tags at 2. simpl. rewrite Hk. reflexivity.
Qed.

(** While no id repeats, nothing is removed: the list stays as it is, the
    dictionary only holds ids of records already met, and the records met
    could all be printed. *)
Definition fresh_inv (expenses : list Obj) (i : nat) (m : gmap string Obj)
  (l : list Obj) : Prop :=
  l = expenses /\
  (forall k, is_Some (m !! k) -> k ∈ tags (take i expenses)) /\
  Forall (fun o => tag_dated o = true) (take i expenses).

Lemma fresh_inv_turn (expenses : list Obj) i m l m' l' :
  NoDup (tags expenses) ->
  fresh_inv expenses i m l -> body i m l = Next m' l' ->
  fresh_inv expenses (S i) m' l'.
Proof.
  intros Hnd (-> & Hm & Hok) Hb.
  destruct (body_Next_dated _ _ _ _ _ Hb) as (e0 & He0 & Hd0).
  assert (Htake : take (S i) expenses = take i expenses ++ [e0])
    by (apply take_S_r, He0).
  assert (Hok' : Forall (fun o => tag_dated o = true) (take (S i) expenses)).
  { rewrite Htake. apply Forall_app. split; [exact Hok|]. repeat constructor. exact Hd0. }
  assert (Hold : forall k, k ∈ tags (take i expenses) -> k ∈ tags (take (S i) expenses)).
  { intros k Hk. rewrite Htake, tags_app. apply elem_of_app. left. exact Hk. }
  assert (Hclash : forall e k first,
             expenses !! i = Some e -> visa_debit_id (val e) = Some k ->
             m !! k = Some first -> False).
  { intros e k first He Hk Hf.
    rewrite (tags_take_S expenses i e k He Hk) in Hnd.
    apply NoDup_app in Hnd as (_ & Hd & _).
    apply (Hd k); [apply Hm; rewrite Hf; eauto|left]. }
  apply body_turn_of in Hb.
  destruct Hb as [e He Hid|e k He Hid Hk|e k first He Hid Hk H1
                 |e k first l1 He Hid Hk H1 H2|e k first l1 l2 He Hid Hk H1 H2];
    try (exfalso; exact (Hclash e k first He Hid Hk)).
  - split; [reflexivity|]. split; [|exact Hok'].
    intros k Hs. apply Hold, Hm, Hs.
  - split; [reflexivity|]. split; [|exact Hok'].
    intros k' Hs. destruct (decide (k = k')) as [<-|Hne].
    + rewrite Htake, tags_app. apply elem_of_app. right.
      assert (e = e0) as -> by congruence.
      unfold tags. simpl. rewrite Hid. left.
    + rewrite lookup_insert_ne in Hs by exact Hne. apply Hold, Hm, Hs.
Qed.

(** X3: When no virtual-debit id occurs twice, nothing is removed: the list is
    left as it is, and it is returned exactly when every record with an id
    has a calendar date (otherwise [str(expense)] raises on the way). *)
Theorem resolver_without_repeated_id_is_identity (expenses : list Obj) :
  NoDup (tags expenses) ->
  left_in (filter_visa_debit_corrections expenses) = expenses /\
  (filter_visa_debit_corrections expenses = Returned expenses <->
   Forall (fun o => tag_dated o = true) expenses).
Proof.
  intros Hnd. unfold filter_visa_debit_corrections.
  destruct (scan_invariant (fresh_inv expenses))
    with (i := 0%nat) (m := (∅ : gmap string Obj)) (l := expenses)
    as (i' & m' & (Hleft & _ & Hok) & Hend).
  - intros i m l m1 l1. apply fresh_inv_turn. exact Hnd.
  - split; [reflexivity|]. split; [|constructor].
    intros k [v Hv]. rewrite lookup_empty in Hv. discriminate.
  - split; [exact Hleft|]. split.
    + intros Hr. rewrite Hr in Hend. unfold body in Hend.
      destruct (expenses !! i') as [e|] eqn:Hi.
      * exfalso. destruct (visa_debit_id (val e)); [|discriminate].
        destruct (m' !! s) as [first|]; destruct (str_ok e); try discriminate.
        destruct (py_remove first expenses) as [l1|]; [|discriminate].
        destruct (py_remove e l1); discriminate.
      * apply lookup_ge_None_1 in Hi. rewrite take_ge in Hok by exact Hi. exact Hok.
    + intros Hall. destruct (scan_returns 0 ∅ expenses Hall) as [out Hout].
      rewrite Hout in Hleft |- *. simpl in Hleft. rewrite Hleft. reflexivity.
Qed.

Lemma py_remove_length x (a b : list Obj) :
  py_remove x a = Some b -> List.length a = S (List.length b).
Proof.
  revert b. induction a as [|y tl IH]; intros b H; simpl in H; [discriminate|].
  destruct (decide (y = x)); [injection H as <-; reflexivity|].
  destruct (py_remove x tl) as [tl'|]; [|discriminate].
  injection H as <-. simpl. f_equal. apply IH. reflexivity.
Qed.

(** The loop invariant behind pairwise removal: the records are distinct,
    no record the dictionary holds lies at or after the iterator's index,
    and an even number of records is gone. *)
Definition paired_inv (expenses : list Obj) (i : nat) (m : gmap string Obj)
  (l : list Obj) : Prop :=
  NoDup l /\
  (forall k v, m !! k = Some v -> v ∉ drop i l) /\
  exists n : nat, List.length expenses = (List.length l + 2 * n)%nat.

Lemma paired_inv_turn (expenses : list Obj) i m l m' l' :
  paired_inv expenses i m l -> turn_of i m l m' l' ->
  paired_inv expenses (S i) m' l'.
Proof.
  intros (Hnd & Hm & n & Hn) Ht.
  destruct Ht as [e He Hid|e k He Hid Hk|e k first He Hid Hk H1
                 |e k first l1 He Hid Hk H1 H2|e k first l1 l2 He Hid Hk H1 H2].
  - split; [exact Hnd|]. split; [|exists n; exact Hn].
    intros k v Hv Hin. apply (Hm k v Hv), elem_of_drop_S, Hin.
  - split; [exact Hnd|]. split; [|exists n; exact Hn].
    intros k' v Hv Hin. destruct (decide (k' = k)) as [->|Hne].
    + rewrite lookup_insert_eq in Hv. injection Hv as <-.
      eapply NoDup_lookup_drop; eassumption.
    + rewrite lookup_insert_ne in Hv by congruence.
      apply (Hm k' v Hv), elem_of_drop_S, Hin.
  - split; [exact Hnd|]. split; [|exists n; exact Hn].
    intros k' v Hv Hin. apply (Hm k' v Hv), elem_of_drop_S, Hin.
  - exfalso. apply py_remove_None in H2. apply H2.
    eapply py_remove_other; [exact H1| |eapply list_elem_of_lookup_2, He].
    intros ->. apply (Hm k first Hk), lookup_elem_of_drop, He.
  - split; [|split].
    + eapply sublist_NoDup; [exact Hnd|].
      etransitivity; eapply py_remove_sublist; eassumption.
    + intros k' v Hv Hin. apply (Hm k' v Hv), elem_of_drop_S.
      eapply py_remove_drop; [exact H1|].
      eapply py_remove_drop; eassumption.
    + exists (S n). apply py_remove_length in H1, H2. lia.
Qed.

(** X4: With distinct records the resolver removes records two at a time: the
    list the call leaves, returned or not, is shorter than the input by an
    even number, and its records are still distinct (a caught [ValueError]
    never leaves half a pair removed); and the call returns when every
    record with an id has a calendar date. *)
Theorem resolver_removes_in_pairs (expenses : list Obj) :
  NoDup expenses ->
  (NoDup (left_in (filter_visa_debit_corrections expenses)) /\
   exists n : nat,
     List.length expenses
     = (List.length (left_in (filter_visa_debit_corrections expenses)) + 2 * n)%nat) /\
  (Forall (fun o => tag_dated o = true) expenses ->
   exists out, filter_visa_debit_corrections expenses = Returned out).
Proof.
  intros Hnd. split; [|apply scan_returns].
  unfold filter_visa_debit_corrections.
  destruct (scan_invariant (paired_inv expenses))
    with (i := 0%nat) (m := (∅ : gmap string Obj)) (l := expenses)
    as (i' & m' & (H1 & _ & H2) & _).
  - intros i m l m1 l1 Hinv Hb. eapply paired_inv_turn; [exact Hinv|].
    apply body_turn_of, Hb.
  - split; [exact Hnd|]. split.
    + intros k v Hv. rewrite lookup_empty in Hv. discriminate.
    + exists 0%nat. lia.
  - split; assumption.
Qed.

End ResolverMore.

Lemma resolver_without_repeated_id_is_identity_witness :
  Resolver.left_in
    (Resolver.filter_visa_debit_corrections
       [Samples.purchase 1 "111"; Samples.plain 2; Samples.correction 3 "222";
        Samples.plain 4])
  = [Samples.purchase 1 "111"; Samples.plain 2; Samples.correction 3 "222";
     Samples.plain 4] /\
  Resolver.filter_visa_debit_corrections
    [Samples.purchase 1 "111"; Samples.plain 2; Samples.correction 3 "222";
     Samples.plain 4]
  = Resolver.Returned
      [Samples.purchase 1 "111"; Samples.plain 2; Samples.correction 3 "222";
       Samples.plain 4].
Proof.
  destruct (resolver_without_repeated_id_is_identity
              [Samples.purchase 1 "111"; Samples.plain 2; Samples.correction 3 "222";
               Samples.plain 4]) as [Hleft Hiff].
  - apply (bool_decide_unpack _). vm_compute. exact I.
  - split; [exact Hleft|]. apply Hiff. repeat constructor.
Defined.

Lemma resolver_removes_in_pairs_witness :
  (NoDup (Resolver.left_in
            (Resolver.filter_visa_debit_corrections
               [Samples.purchase 1 "111"; Samples.plain 2; Samples.correction 3 "111";
                Samples.correction 4 "111"])) /\
   exists n : nat,
     List.length [Samples.purchase 1 "111"; Samples.plain 2;
                  Samples.correction 3 "111"; Samples.correction 4 "111"]
     = (List.length
          (Resolver.left_in
             (Resolver.filter_visa_debit_corrections
                [Samples.purchase 1 "111"; Samples.plain 2;
                 Samples.correction 3 "111"; Samples.correction 4 "111"])) + 2 * n)%nat) /\
  exists out,
    Resolver.filter_visa_debit_corrections
      [Samples.purchase 1 "111"; Samples.plain 2; Samples.correction 3 "111";
       Samples.correction 4 "111"] = Resolver.Returned out.
Proof.
  destruct (resolver_removes_in_pairs
              [Samples.purchase 1 "111"; Samples.plain 2; Samples.correction 3 "111";
               Samples.correction 4 "111"]) as [Hpairs Hreturns].
  - apply (bool_decide_unpack _). vm_compute. exact I.
  - split; [exact Hpairs|]. apply Hreturns. repeat constructor.
Defined.

(** ** More on the page scanners *)

Section PageMore.

(** *** The scanner of [parsers/common.py] *)

(** A property of the scan state that every turn keeps holds when the loop
    is over. *)
Lemma page_loop_invariant (F : Format) (I : Scan -> Prop) :
  (forall s n line_item s', I s -> page_step F s n line_item = Ok s' -> I s') ->
  forall lines s n s', I s -> page_loop F s n lines = Ok s' -> I s'.
Proof.
  intros Hstep lines. induction lines as [|x lines IH]; intros s n s' Hs; simpl.
  - intros [= <-]. exact Hs.
  - destruct (page_step F s n x) as [s1|] eqn:H1; simpl; [|discriminate].
    apply IH. eapply Hstep; eassumption.
Qed.

(** X5: On a page that never shows the header the shared scanner returns no
    record, the previous line it was handed, and the parser untouched,
    whatever the format. *)
Theorem page_without_header_passes_previous_line
  (F : Format) (self : Parser) (lines : list string) (previous : string) :
  start_of_items F ∉ lines ->
  process_page_lines F self lines previous = Ok ([], [], previous, self).
Proof.
  intros Hno. unfold process_page_lines.
  rewrite <- (app_nil_r lines).
  rewrite page_loop_before_header; [reflexivity|reflexivity|exact Hno].
Qed.

Lemma page_step_labels (F : Format) (s s' : Scan) (n : Z) (line_item : string) :
  Forall (fun e => line e <> "") (processed_expenses s) ->
  page_step F s n line_item = Ok s' ->
  Forall (fun e => line e <> "") (processed_expenses s').
Proof.
  intros Hs. unfold page_step.
  destruct (String.eqb line_item (start_of_items F)); [intros [= <-]; exact Hs|].
  destruct (negb (found_start s)); [intros [= <-]; exact Hs|].
  destruct (process_line F (parser s) n line_item (previous_line_item s))
    as [[self' [item|]]|]; simpl; [| |discriminate].
  - destruct (backfill self' item) as [e|nsf].
    + destruct (line e) as [|ch rest] eqn:Hl; simpl; intros [= <-]; simpl;
        [exact Hs|].
      apply Forall_app. split; [exact Hs|]. repeat constructor.
      rewrite Hl. discriminate.
    + intros [= <-]. exact Hs.
  - intros [= <-]. exact Hs.
Qed.

(** X6: No expense with an empty label is ever returned by the shared scanner,
    whatever the format. *)
Theorem page_expenses_have_labels
  (F : Format) (self : Parser) (lines : list string) (previous : string)
  (expenses : list Expense) (nsfs : list NSF) (last : string) (self' : Parser) :
  process_page_lines F self lines previous = Ok (expenses, nsfs, last, self') ->
  Forall (fun e => line e <> "") expenses.
Proof.
  unfold process_page_lines.
  destruct (page_loop F (mkScan self false previous [] []) 1 lines) as [s|] eqn:Hl;
    simpl; [|discriminate].
  intros [= <- _ _ _].
  revert Hl. apply (page_loop_invariant F
                      (fun s => Forall (fun e => line e <> "") (processed_expenses s))).
  - intros s0 n x s1. apply page_step_labels.
  - constructor.
Qed.

(** *** Format A *)

Lemma find_category_Some (cats : Categories) (l pattern : string)
  (v : string * string * string) :
  find_category cats l = Some (pattern, v) ->
  (pattern, v) ∈ cats /\ contains pattern l = true.
Proof.
  induction cats as [|[p w] rest IH]; simpl; [discriminate|].
  destruct (contains p l) eqn:Hc.
  - intros [= <- <-]. split; [left|exact Hc].
  - intros H. apply IH in H as [Hin Hc']. split; [right; exact Hin|exact Hc'].
Qed.

Lemma main_money_track_date_categories (self self' : Parser) (l : string) :
  MyMainMoney.track_date self l = Ok self' -> categories self' = categories self.
Proof.
  unfold MyMainMoney.track_date.
  destruct (Re.re_match MyMainMoney.date_regex l); [|intros [= <-]; reflexivity].
  destruct (strptime _) as [new_date|]; simpl; [|discriminate].
  intros [= <-].
  destruct (current_date self) as [d|] eqn:Hd; simpl; rewrite ?Hd.
  - destruct ((d_month d =? 12) && (d_month new_date =? 1)); reflexivity.
  - destruct (d_month new_date =? 12); simpl; rewrite ?Hd; reflexivity.
Qed.

(** An expense that stands for a line of the page and an entry of the
    category table. *)
Definition from_table (cats : Categories) (lines : list string) (e : Expense) : Prop :=
  exists pattern l,
    l ∈ lines /\ contains pattern l = true /\
    (pattern, (page e, category e, line e)) ∈ cats.

Lemma main_money_step_from_table (cats : Categories) (lines : list string)
  (s s' : Scan) (n : Z) (line_item : string) :
  line_item ∈ lines ->
  categories (parser s) = cats /\
  Forall (from_table cats lines) (processed_expenses s) ->
  page_step MyMainMoney.format s n line_item = Ok s' ->
  categories (parser s') = cats /\
  Forall (from_table cats lines) (processed_expenses s').
Proof.
  intros Hin [Hc Hs]. unfold page_step.
  destruct (String.eqb line_item (start_of_items MyMainMoney.format));
    [intros [= <-]; split; assumption|].
  destruct (negb (found_start s)); [intros [= <-]; split; assumption|].
  simpl. unfold MyMainMoney.process_line.
  destruct (MyMainMoney.track_date (parser s) line_item) as [self1|] eqn:Ht;
    simpl; [|discriminate].
  apply main_money_track_date_categories in Ht. rewrite Hc in Ht.
  destruct (Re.re_match MyMainMoney.nsf_regex line_item) as [nsf_match|]; simpl.
  { destruct (truthy (date_attr (current_date self1))); intros [= <-];
      split; assumption. }
  destruct (find_category (categories self1) line_item)
    as [[pattern [[pg cat] friendly_name]]|] eqn:Hf; simpl;
    [|intros [= <-]; split; assumption].
  apply find_category_Some in Hf as [Hmem Hcon]. rewrite Ht in Hmem.
  destruct (Re.re_search MyMainMoney.dollar_regex line_item); simpl; [|discriminate].
  assert (Hnew : forall e, page e = pg -> category e = cat -> line e = friendly_name ->
                           from_table cats lines e).
  { intros e Hp Hcat Hl. exists pattern, line_item.
    rewrite Hp, Hcat, Hl. repeat split; assumption. }
  destruct (truthy (date_attr (current_date self1))); simpl;
    destruct (0 <? String.length friendly_name)%nat; intros [= <-]; simpl;
    (split; [exact Ht|]); try exact Hs;
    (apply Forall_app; split; [exact Hs|]); repeat constructor;
    apply Hnew; reflexivity.
Qed.

Lemma main_money_loop_from_table (cats : Categories) (all : list string) :
  forall (lines : list string) (s s' : Scan) (n : Z),
    lines ⊆ all ->
    categories (parser s) = cats /\
    Forall (from_table cats all) (processed_expenses s) ->
    page_loop MyMainMoney.format s n lines = Ok s' ->
    categories (parser s') = cats /\
    Forall (from_table cats all) (processed_expenses s').
Proof.
  induction lines as [|x lines IH]; intros s s' n Hsub Hs; simpl.
  - intros [= <-]. exact Hs.
  - destruct (page_step MyMainMoney.format s n x) as [s1|] eqn:H1; simpl;
      [|discriminate].
    apply IH.
    + intros z Hz. apply Hsub. right. exact Hz.
    + eapply main_money_step_from_table; [|exact Hs|exact H1].
      apply Hsub. left.
Qed.

(** X7: Every expense Format A returns for a page carries the page, category
    and label of an entry of the category table whose pattern occurs in a
    line of that page; the table itself is never changed. *)
Theorem main_money_expenses_come_from_table
  (self : Parser) (lines : list string) (previous : string)
  (expenses : list Expense) (nsfs : list NSF) (last : string) (self' : Parser) :
  process_page_lines MyMainMoney.format self lines previous
    = Ok (expenses, nsfs, last, self') ->
  categories self' = categories self /\
  Forall (from_table (categories self) lines) expenses.
Proof.
  unfold process_page_lines.
  destruct (page_loop MyMainMoney.format (mkScan self false previous [] []) 1 lines)
    as [s|] eqn:Hl; simpl; [|discriminate].
  intros [= <- _ _ <-].
  eapply main_money_loop_from_table; [|split|exact Hl].
  - intros z Hz. exact Hz.
  - reflexivity.
  - constructor.
Qed.

(** X8: The year rule of Format A in one piece.  A line with no date at its
    head leaves the parser alone.  A dated line sets the current date, and
    moves the tracked year by one in exactly two cases: down when no date
    was set before and the new month is December, up when the date set
    before is in December and the new month is January. *)
Theorem main_money_year_rule (self self' : Parser) (l : string) :
  MyMainMoney.track_date self l = Ok self' ->
  match Re.re_match MyMainMoney.date_regex l with
  | None => self' = self
  | Some _ =>
      exists new_date,
        current_date self' = Some new_date /\
        current_year self' =
        match current_date self with
        | None =>
            if d_month new_date =? 12 then current_year self - 1
            else current_year self
        | Some d =>
            if (d_month d =? 12) && (d_month new_date =? 1) then current_year self + 1
            else current_year self
        end
  end.
Proof.
  unfold MyMainMoney.track_date.
  destruct (Re.re_match MyMainMoney.date_regex l); [|intros [= <-]; reflexivity].
  destruct (strptime _) as [new_date|]; simpl; [|discriminate].
  intros [= <-]. exists new_date.
  destruct (current_date self) as [d|] eqn:Hd; simpl.
  - rewrite Hd. destruct ((d_month d =? 12) && (d_month new_date =? 1));
      split; reflexivity.
  - destruct (d_month new_date =? 12); simpl; rewrite Hd; split; reflexivity.
Qed.

End PageMore.

(** *** Format B *)

Section VisaMore.

(** A property of the cursor that every turn keeps holds when the outer
    loop of Format B is over. *)
Lemma loop_invariant (I : VISAAvionUnlimited.Cursor -> Prop) :
  (forall c current c',
      I c -> VISAAvionUnlimited.line_item c = Some current ->
      VISAAvionUnlimited.turn c current = Ok c' -> I c') ->
  forall c c', I c -> VISAAvionUnlimited.loop c = Ok c' -> I c'.
Proof.
  intros Hstep c. funelim (VISAAvionUnlimited.loop c); intros cz Hc Hl.
  all: try discriminate Hl.
  all: try (injection Hl as <-; exact Hc).
  match goal with
  | IH : forall J : VISAAvionUnlimited.Cursor -> Prop, _ |- _ =>
      apply (IH I Hstep cz); [|exact Hl]
  end.
  eapply Hstep; eassumption.
Qed.

(** In Format B a dated line never moves the tracked year: the date is
    assigned before the two checks that would move it. *)
Lemma visa_track_date_year (self self' : Parser) (l : string) :
  VISAAvionUnlimited.track_date self l = Ok self' ->
  current_year self' = current_year self /\ categories self' = categories self.
Proof.
  unfold VISAAvionUnlimited.track_date.
  destruct (Re.re_search VISAAvionUnlimited.date_regex l);
    [|intros [= <-]; split; reflexivity].
  destruct (strptime _) as [new_date|]; simpl; [|discriminate].
  intros [= <-].
  destruct ((d_month new_date =? 12) && (d_month new_date =? 1)) eqn:Hm.
  - apply andb_true_iff in Hm as [H12 H1].
    apply Z.eqb_eq in H12, H1. congruence.
  - split; reflexivity.
Qed.

Lemma visa_process_line_year (self self' : Parser) (n : Z) (l previous : string)
  (item : option Item) :
  VISAAvionUnlimited.process_line self n l previous = Ok (self', item) ->
  current_year self' = current_year self /\ categories self' = categories self.
Proof.
  unfold VISAAvionUnlimited.process_line.
  destruct (VISAAvionUnlimited.track_date self l) as [self1|] eqn:Ht; simpl;
    [|discriminate].
  apply visa_track_date_year in Ht.
  destruct (find_category (categories self1) l) as [[pattern [[pg cat] friendly]]|];
    intros [= <- _]; exact Ht.
Qed.

(** What a turn of Format B does to the parser and to the list of records:
    the parser comes from [process_line] or is left alone, and at most one
    record, with a label that is not empty, is appended. *)
Lemma visa_turn_shape (c c' : VISAAvionUnlimited.Cursor) (current : string) :
  VISAAvionUnlimited.turn c current = Ok c' ->
  (VISAAvionUnlimited.self c' = VISAAvionUnlimited.self c \/
   exists n previous item,
     VISAAvionUnlimited.process_line (VISAAvionUnlimited.self c) n current previous
     = Ok (VISAAvionUnlimited.self c', item)) /\
  (VISAAvionUnlimited.processed_lines c' = VISAAvionUnlimited.processed_lines c \/
   exists e, line e <> "" /\
     VISAAvionUnlimited.processed_lines c' = VISAAvionUnlimited.processed_lines c ++ [e]).
Proof.
  unfold VISAAvionUnlimited.turn.
  destruct (String.eqb current (start_of_items VISAAvionUnlimited.format));
    [intros [= <-]; split; left; reflexivity|].
  destruct (negb (VISAAvionUnlimited.found_start c));
    [intros [= <-]; split; left; reflexivity|].
  destruct (VISAAvionUnlimited.process_line (VISAAvionUnlimited.self c)
              (VISAAvionUnlimited.line_number c) current
              (VISAAvionUnlimited.previous_line_item c))
    as [[self1 item]|] eqn:Hp; simpl; [|discriminate].
  assert (Hself : forall c0, VISAAvionUnlimited.self c0 = self1 ->
            VISAAvionUnlimited.self c0 = VISAAvionUnlimited.self c \/
            exists n previous item,
              VISAAvionUnlimited.process_line (VISAAvionUnlimited.self c) n current previous
              = Ok (VISAAvionUnlimited.self c0, item)).
  { intros c0 ->. right. eauto. }
  destruct item as [[e|nsf]|];
    try (intros [= <-]; split; [apply Hself; reflexivity|left; reflexivity]).
  destruct (line (VISAAvionUnlimited.backfill_date e)) as [|ch rest] eqn:Hl; simpl;
    [intros [= <-]; split; [apply Hself; reflexivity|left; reflexivity]|].
  destruct (VISAAvionUnlimited.lookahead 1 (VISAAvionUnlimited.line_items_itr c))
    as [[[[a|] n] itr]|]; simpl; try discriminate.
  intros [= <-]. split; [apply Hself; reflexivity|]. right.
  eexists. split; [|reflexivity]. simpl.
  unfold VISAAvionUnlimited.set_amount. simpl. rewrite Hl. discriminate.
Qed.

(** X11: A page of Format B never moves the tracked year nor touches the
    category table, whatever dates its lines carry; it returns no NSF, and
    no expense with an empty label. *)
Theorem visa_page_keeps_tracked_year
  (self : Parser) (lines : list string) (previous : string)
  (expenses : list Expense) (nsfs : list NSF) (last : string) (self' : Parser) :
  VISAAvionUnlimited.process_page_lines self lines previous
    = Ok (expenses, nsfs, last, self') ->
  current_year self' = current_year self /\
  categories self' = categories self /\
  nsfs = [] /\
  Forall (fun e => line e <> "") expenses.
Proof.
  unfold VISAAvionUnlimited.process_page_lines.
  destruct lines as [|first itr]; [discriminate|].
  destruct (VISAAvionUnlimited.loop _) as [c|] eqn:Hl; simpl; [|discriminate].
  unfold VISAAvionUnlimited.cursor_result. intros [= <- <- _ <-].
  revert Hl.
  apply (loop_invariant
           (fun c => current_year (VISAAvionUnlimited.self c) = current_year self /\
                     categories (VISAAvionUnlimited.self c) = categories self /\
                     @nil NSF = [] /\
                     Forall (fun e => line e <> "")
                       (VISAAvionUnlimited.processed_lines c))).
  - intros c0 current c1 (Hy & Hc & _ & Hf) _ Ht.
    apply visa_turn_shape in Ht as [Hs Hp].
    assert (Hyc : current_year (VISAAvionUnlimited.self c1) = current_year self /\
                  categories (VISAAvionUnlimited.self c1) = categories self).
    { destruct Hs as [->|(n & pr & item & Hpl)]; [split; assumption|].
      apply visa_process_line_year in Hpl as [-> ->]. split; assumption. }
    destruct Hyc as [Hy1 Hc1]. repeat split; try assumption.
    destruct Hp as [->|(e & He & ->)]; [exact Hf|].
    apply Forall_app. split; [exact Hf|]. repeat constructor. exact He.
  - simpl. repeat split. constructor.
Qed.

(** X12: The lookahead of Format B takes the amount from the first of the next
    two lines that ends in one, counts the lines it has read, and never
    reads a third line; with no amount on two lines it gives up after
    exactly those two. *)
Theorem lookahead_takes_first_amount
  (itr itr' : list string) (found_amount : option Z) (n : nat) :
  VISAAvionUnlimited.lookahead 1 itr = Ok (found_amount, n, itr') ->
  match found_amount with
  | Some a =>
      (n = 1 \/ n = 2)%nat /\ itr' = drop n itr /\
      (exists l, itr !! (n - 1)%nat = Some l /\
                 VISAAvionUnlimited.dollar_amount l = Some a) /\
      Forall (fun l => VISAAvionUnlimited.dollar_amount l = None) (take (n - 1) itr)
  | None =>
      n = 3%nat /\ itr' = drop 2 itr /\ (2 <= List.length itr)%nat /\
      Forall (fun l => VISAAvionUnlimited.dollar_amount l = None) (take 2 itr)
  end.
Proof.
  rewrite lookahead_from_1.
  destruct itr as [|l1 [|l2 t2]]; [discriminate| |].
  - destruct (VISAAvionUnlimited.dollar_amount l1) eqn:H1; [|discriminate].
    intros [= <- <- <-]. simpl. repeat split; [left; reflexivity| |constructor].
    exists l1. split; [reflexivity|exact H1].
  - destruct (VISAAvionUnlimited.dollar_amount l1) eqn:H1.
    + intros [= <- <- <-]. simpl. repeat split; [left; reflexivity| |constructor].
      exists l1. split; [reflexivity|exact H1].
    + destruct (VISAAvionUnlimited.dollar_amount l2) eqn:H2.
      * intros [= <- <- <-]. simpl. repeat split; [right; reflexivity| |].
        -- exists l2. split; [reflexivity|exact H2].
        -- repeat constructor. exact H1.
      * intros [= <- <- <-]. simpl. repeat split; [lia|].
        repeat constructor; assumption.
Qed.

End VisaMore.

(** *** The trailing amount of Format B *)

Section DollarMore.
Import Re.

Lemma search_from_inv (r : regex) (w : list ascii) :
  forall bol o,
    search_from r bol w = Some o ->
    exists pre suf bol', w = pre ++ suf /\ exec r bol' suf [] accept = Some o.
Proof.
  induction w as [|c w IH]; intros bol o; simpl.
  - destruct (exec r bol [] [] accept) eqn:He; [|discriminate].
    intros [= <-]. exists [], [], bol. split; [reflexivity|exact He].
  - destruct (exec r bol (c :: w) [] accept) eqn:He.
    + intros [= <-]. exists [], (c :: w), bol. split; [reflexivity|exact He].
    + intros H. apply IH in H as (pre & suf & bol' & -> & H).
      exists (c :: pre), suf, bol'. split; [reflexivity|exact H].
Qed.

(** A character of an amount: a digit, a comma or the point. *)
Definition amount_char (c : ascii) : bool :=
  is_digit c || Ascii.eqb c "," || Ascii.eqb c ".".

Lemma amount_alphabet (c : ascii) :
  alphabet (Parsers.amount_regex 2) c = true -> amount_char c = true.
Proof.
  unfold amount_char, Parsers.amount_regex, opt, lit, digit. cbn [alphabet].
  rewrite (Ascii.eqb_sym "," c), (Ascii.eqb_sym "." c).
  destruct (is_digit c), (Ascii.eqb c ","), (Ascii.eqb c "."); simpl; congruence.
Qed.

(** X13: Format B reads an amount only from the end of a line: when its dollar
    pattern finds one, the line ends in a dollar sign followed by digits,
    commas and points (and at most a line break), and the amount is the
    value of that text. *)
Theorem dollar_amount_reads_line_end (next_line : string) (a : Z) :
  Parsers.VISAAvionUnlimited.dollar_amount next_line = Some a ->
  exists front token tail,
    list_ascii_of_string next_line = front ++ "$"%char :: token ++ tail /\
    Forall (fun c => amount_char c = true) token /\
    (tail = [] \/ tail = ["010"%char]) /\
    a = Py.decimal_cents (string_of_list_ascii token).
Proof.
  unfold Parsers.VISAAvionUnlimited.dollar_amount, re_search.
  destruct (search_from _ _ _) as [o|] eqn:Hs; [|discriminate].
  intros [= <-].
  apply search_from_inv in Hs as (front & suf & bol & Hline & He).
  unfold Parsers.VISAAvionUnlimited.dollar_regex in He.
  change (exec (Seq (lit "$") (Seq (Group 1 (Parsers.amount_regex 2)) Eol))
            bol suf [] accept)
    with (match suf with
          | c :: w' =>
              if Ascii.eqb "$" c
              then exec (Parsers.amount_regex 2) false w' []
                     (fun bol' w2 caps' =>
                        exec Eol bol' w2
                          ((1%nat, take (List.length w' - List.length w2) w') :: caps')
                          accept)
              else None
          | [] => None
          end) in He.
  destruct suf as [|c t]; [discriminate|].
  destruct (Ascii.eqb_spec "$"%char c) as [<-|_]; [|discriminate].
  apply exec_consumes in He as (token & tail & bol' & caps' & -> & Hall & Hk).
  exists front, token, tail. split; [exact Hline|].
  split; [eapply Forall_impl; [exact Hall|apply amount_alphabet]|].
  assert (Htake : take (List.length (token ++ tail) - List.length tail) (token ++ tail)
                  = token).
  { rewrite length_app, Nat.add_sub. apply take_app_length. }
  rewrite Htake in Hk. simpl in Hk.
  destruct tail as [|x [|y tail]].
  - injection Hk as <-. split; [left; reflexivity|].
    unfold group. simpl. reflexivity.
  - destruct (Ascii.eqb_spec x "010"%char) as [->|_]; [|discriminate].
    injection Hk as <-. split; [right; reflexivity|].
    unfold group. simpl. reflexivity.
  - discriminate.
Qed.

End DollarMore.

Lemma page_without_header_passes_previous_line_witness :
  process_page_lines MyMainMoney.format Samples.sample_parser
    ["Page 2 of 3"; "28 Dec COFFEE SHOP 4.50"] "Visa Debit purchase - 1234"
  = Ok ([], [], "Visa Debit purchase - 1234", Samples.sample_parser).
Proof.
  apply (page_without_header_passes_previous_line MyMainMoney.format
           Samples.sample_parser ["Page 2 of 3"; "28 Dec COFFEE SHOP 4.50"]
           "Visa Debit purchase - 1234").
  not_in_list.
Defined.

Lemma page_expenses_have_labels_witness :
  exists expenses nsfs last self',
    process_page_lines MyMainMoney.format Samples.sample_parser
      [start_of_items MyMainMoney.format; "28 Dec COFFEE SHOP 4.50"; "29 Dec VOID 1.00"] ""
    = Ok (expenses, nsfs, last, self') /\
    List.length expenses = 1%nat /\
    Forall (fun e => line e <> "") expenses.
Proof.
  match eval vm_compute in
        (process_page_lines MyMainMoney.format Samples.sample_parser
           [start_of_items MyMainMoney.format; "28 Dec COFFEE SHOP 4.50";
            "29 Dec VOID 1.00"] "")
  with
  | Ok (?es, ?ns, ?l, ?p) => exists es, ns, l, p
  end.
  split; [vm_compute; reflexivity|]. split; [reflexivity|].
  eapply (page_expenses_have_labels MyMainMoney.format Samples.sample_parser
            [start_of_items MyMainMoney.format; "28 Dec COFFEE SHOP 4.50";
             "29 Dec VOID 1.00"] "").
  vm_compute. reflexivity.
Defined.

Lemma main_money_expenses_come_from_table_witness :
  exists expenses nsfs last self',
    process_page_lines MyMainMoney.format Samples.sample_parser
      [start_of_items MyMainMoney.format; "28 Dec COFFEE SHOP 4.50";
       "3 Jan OVERLIMIT FEE 29.00"] ""
    = Ok (expenses, nsfs, last, self') /\
    List.length expenses = 2%nat /\
    categories self' = Samples.sample_categories /\
    Forall (from_table Samples.sample_categories
              [start_of_items MyMainMoney.format; "28 Dec COFFEE SHOP 4.50";
               "3 Jan OVERLIMIT FEE 29.00"]) expenses.
Proof.
  match eval vm_compute in
        (process_page_lines MyMainMoney.format Samples.sample_parser
           [start_of_items MyMainMoney.format; "28 Dec COFFEE SHOP 4.50";
            "3 Jan OVERLIMIT FEE 29.00"] "")
  with
  | Ok (?es, ?ns, ?l, ?p) => exists es, ns, l, p
  end.
  split; [vm_compute; reflexivity|]. split; [reflexivity|].
  eapply (main_money_expenses_come_from_table Samples.sample_parser
            [start_of_items MyMainMoney.format; "28 Dec COFFEE SHOP 4.50";
             "3 Jan OVERLIMIT FEE 29.00"] "").
  vm_compute. reflexivity.
Defined.

Lemma main_money_year_rule_witness :
  exists self2,
    MyMainMoney.track_date
      (mkParser Samples.sample_categories (mkDate 2023 1 5)
         (Some (mkDate 2023 12 28)) 2022)
      "3 Jan COFFEE SHOP 4.50" = Ok self2 /\
    exists new_date,
      current_date self2 = Some new_date /\
      current_year self2 =
      (if (d_month (mkDate 2023 12 28) =? 12) && (d_month new_date =? 1)
       then 2022 + 1 else 2022).
Proof.
  match eval vm_compute in
        (MyMainMoney.track_date
           (mkParser Samples.sample_categories (mkDate 2023 1 5)
              (Some (mkDate 2023 12 28)) 2022)
           "3 Jan COFFEE SHOP 4.50")
  with
  | Ok ?p2 => exists p2
  end.
  assert (H2 : MyMainMoney.track_date
                 (mkParser Samples.sample_categories (mkDate 2023 1 5)
                    (Some (mkDate 2023 12 28)) 2022)
                 "3 Jan COFFEE SHOP 4.50" = Ok _) by (vm_compute; reflexivity).
  split; [exact H2|].
  exact (main_money_year_rule _ _ _ H2).
Defined.

Lemma visa_page_keeps_tracked_year_witness :
  exists expenses nsfs last self',
    VISAAvionUnlimited.process_page_lines Samples.sample_parser
      [start_of_items VISAAvionUnlimited.format; "DEC 28 DEC 29 OVERLIMIT FEE"; "$29.00";
       "JAN 03 JAN 04 COFFEE SHOP"; "TORONTO ON"; "$4.50"] ""
    = Ok (expenses, nsfs, last, self') /\
    List.length expenses = 2%nat /\
    current_year self' = 2023 /\
    categories self' = Samples.sample_categories /\
    nsfs = [] /\
    Forall (fun e => line e <> "") expenses.
Proof.
  match eval vm_compute in
        (VISAAvionUnlimited.process_page_lines Samples.sample_parser
           [start_of_items VISAAvionUnlimited.format; "DEC 28 DEC 29 OVERLIMIT FEE";
            "$29.00"; "JAN 03 JAN 04 COFFEE SHOP"; "TORONTO ON"; "$4.50"] "")
  with
  | Ok (?es, ?ns, ?l, ?p) => exists es, ns, l, p
  end.
  split; [vm_compute; reflexivity|]. split; [reflexivity|].
  eapply (visa_page_keeps_tracked_year Samples.sample_parser
            [start_of_items VISAAvionUnlimited.format; "DEC 28 DEC 29 OVERLIMIT FEE";
             "$29.00"; "JAN 03 JAN 04 COFFEE SHOP"; "TORONTO ON"; "$4.50"] "").
  vm_compute. reflexivity.
Defined.

Lemma lookahead_takes_first_amount_witness :
  (2 = 1 \/ 2 = 2)%nat /\
  ["APR 29 APR 30 COFFEE SHOP"] = drop 2 ["TORONTO ON"; "REF 7312 $12.34";
                                          "APR 29 APR 30 COFFEE SHOP"] /\
  (exists l, ["TORONTO ON"; "REF 7312 $12.34"; "APR 29 APR 30 COFFEE SHOP"] !! (2 - 1)%nat
             = Some l /\
             VISAAvionUnlimited.dollar_amount l = Some 1234) /\
  Forall (fun l => VISAAvionUnlimited.dollar_amount l = None)
    (take (2 - 1) ["TORONTO ON"; "REF 7312 $12.34"; "APR 29 APR 30 COFFEE SHOP"]).
Proof.
  apply (lookahead_takes_first_amount
           ["TORONTO ON"; "REF 7312 $12.34"; "APR 29 APR 30 COFFEE SHOP"]
           ["APR 29 APR 30 COFFEE SHOP"] (Some 1234) 2).
  vm_compute. reflexivity.
Defined.

Lemma dollar_amount_reads_line_end_witness :
  exists front token tail,
    list_ascii_of_string "REF 7312 $1,234.56" = front ++ "$"%char :: token ++ tail /\
    Forall (fun c => amount_char c = true) token /\
    (tail = [] \/ tail = ["010"%char]) /\
    123456 = Py.decimal_cents (string_of_list_ascii token).
Proof.
  apply (dollar_amount_reads_line_end "REF 7312 $1,234.56" 123456).
  vm_compute. reflexivity.
Defined.

(** ** The category table and the report *)

Section MainFacts.
Import Resolver.

Lemma get_set_eq {K V} `{EqDecision K} (k : K) (v : V) (d : Main.dict K V) :
  Main.get k (Main.set k v d) = Some v.
Proof.
  induction d as [|[k' v'] rest IH]; simpl.
  - destruct (decide (k = k)); congruence.
  - destruct (decide (k' = k)) as [->|Hne]; simpl.
    + destruct (decide (k = k)); congruence.
    + destruct (decide (k' = k)); [congruence|exact IH].
Qed.

Lemma get_set_ne {K V} `{EqDecision K} (k k' : K) (v : V) (d : Main.dict K V) :
  k <> k' -> Main.get k' (Main.set k v d) = Main.get k' d.
Proof.
  intros Hne. induction d as [|[k0 v0] rest IH]; simpl.
  - destruct (decide (k = k')); congruence.
  - destruct (decide (k0 = k)) as [->|Hk]; simpl.
    + destruct (decide (k = k')); congruence.
    + destruct (decide (k0 = k')); [reflexivity|exact IH].
Qed.

Lemma elem_of_set {K V} `{EqDecision K} (k : K) (v : V) (d : Main.dict K V) (x : K * V) :
  x ∈ Main.set k v d -> x = (k, v) \/ x ∈ d.
Proof.
  induction d as [|[k' v'] rest IH]; simpl.
  - intros Hx. apply list_elem_of_singleton in Hx. left. exact Hx.
  - destruct (decide (k' = k)) as [->|Hne]; intros Hx;
      apply elem_of_cons in Hx as [Hx|Hx].
    + left. exact Hx.
    + right. right. exact Hx.
    + right. rewrite Hx. left.
    + apply IH in Hx as [Hx|Hx]; [left; exact Hx|right; right; exact Hx].
Qed.

Lemma set_keys_NoDup {K V} `{EqDecision K} (k : K) (v : V) (d : Main.dict K V) :
  NoDup (map fst d) -> NoDup (map fst (Main.set k v d)).
Proof.
  induction d as [|[k' v'] rest IH]; simpl; intros Hnd.
  - repeat constructor. intros Hx. apply elem_of_nil in Hx. exact Hx.
  - apply NoDup_cons in Hnd as [Hk Hnd].
    destruct (decide (k' = k)) as [->|Hne]; simpl.
    + apply NoDup_cons. split; assumption.
    + apply NoDup_cons. split; [|apply IH, Hnd].
      intros Hin. apply list_elem_of_fmap in Hin as ([k0 v0] & Hk0 & Hin).
      simpl in Hk0. subst k0.
      apply elem_of_set in Hin as [Hin|Hin]; [congruence|].
      apply Hk. apply list_elem_of_fmap. exists (k', v0). split; [reflexivity|exact Hin].
Qed.

Lemma get_is_Some_set {K V} `{EqDecision K} (k k' : K) (v : V) (d : Main.dict K V) :
  is_Some (Main.get k' d) -> is_Some (Main.get k' (Main.set k v d)).
Proof.
  intros Hs. destruct (decide (k = k')) as [->|Hne].
  - rewrite get_set_eq. eauto.
  - rewrite get_set_ne by exact Hne. exact Hs.
Qed.

(** The pattern is configured under the page and category, with that
    friendly name or [null]. *)
Definition configured (config : Main.Config) (page category pattern : string)
  (friendly_name : option string) : Prop :=
  exists page_categories patterns,
    (page, page_categories) ∈ config /\
    (category, patterns) ∈ page_categories /\
    (pattern, friendly_name) ∈ patterns.

(** What the loops of [load_categories] keep true of the table built so
    far from a part of the configuration. *)
Definition table_inv (known : string -> string -> string -> option string -> Prop)
  (categories : Parsers.Categories) : Prop :=
  NoDup (map fst categories) /\
  (forall pattern page category friendly,
      (pattern, (page, category, friendly)) ∈ categories ->
      exists name, known page category pattern name /\
                   friendly = default pattern name) /\
  (forall page category pattern name,
      known page category pattern name -> is_Some (Main.get pattern categories)).

Lemma table_inv_weaken (known known' : string -> string -> string -> option string -> Prop)
  (categories : Parsers.Categories) :
  (forall pg c p n, known pg c p n <-> known' pg c p n) ->
  table_inv known categories -> table_inv known' categories.
Proof.
  intros Heq (Hnd & Hfrom & Hto). split; [exact Hnd|]. split.
  - intros p pg c f Hin. apply Hfrom in Hin as (n & Hk & Hf).
    exists n. split; [apply Heq, Hk|exact Hf].
  - intros pg c p n Hk. eapply Hto. apply Heq, Hk.
Qed.

Lemma table_inv_set (known : string -> string -> string -> option string -> Prop)
  (categories : Parsers.Categories) (page category pattern : string)
  (friendly_name : option string) :
  table_inv known categories ->
  table_inv (fun pg c p n =>
               known pg c p n \/
               (pg, c, p, n) = (page, category, pattern, friendly_name))
    (Main.set pattern (page, category, default pattern friendly_name) categories).
Proof.
  intros (Hnd & Hfrom & Hto). split; [apply set_keys_NoDup, Hnd|]. split.
  - intros p pg c f Hin. apply elem_of_set in Hin as [Hin|Hin].
    + injection Hin as -> -> -> ->. exists friendly_name. split; [right|]; reflexivity.
    + apply Hfrom in Hin as (n & Hk & Hf). exists n. split; [left; exact Hk|exact Hf].
  - intros pg c p n [Hk|Hk].
    + apply get_is_Some_set. eapply Hto, Hk.
    + injection Hk as -> -> -> ->. rewrite get_set_eq. eauto.
Qed.

Lemma load_patterns_inv (page category : string)
  (patterns : Main.dict string (option string)) :
  forall (known : string -> string -> string -> option string -> Prop)
         (categories : Parsers.Categories),
    table_inv known categories ->
    table_inv (fun pg c p n =>
                 known pg c p n \/
                 (pg = page /\ c = category /\ (p, n) ∈ patterns))
      (Main.load_patterns page category categories patterns).
Proof.
  unfold Main.load_patterns.
  induction patterns as [|[pattern friendly_name] rest IH]; intros known categories Hinv;
    simpl.
  - eapply table_inv_weaken; [|exact Hinv].
    intros pg c p n. split; [intros Hk; left; exact Hk|].
    intros [Hk|(_ & _ & Hin)]; [exact Hk|]. apply elem_of_nil in Hin. destruct Hin.
  - eapply table_inv_weaken;
      [|apply IH; apply (table_inv_set known categories page category pattern
                           friendly_name), Hinv].
    intros pg c p n. split.
    + intros [[Hk|Hk]|(-> & -> & Hin)].
      * left. exact Hk.
      * injection Hk as -> -> -> ->. right. repeat split. left.
      * right. repeat split. right. exact Hin.
    + intros [Hk|(-> & -> & Hin)]; [left; left; exact Hk|].
      apply elem_of_cons in Hin as [Hin|Hin].
      * injection Hin as -> ->. left. right. reflexivity.
      * right. repeat split. exact Hin.
Qed.

Lemma load_page_inv (page : string)
  (page_categories : Main.dict string (Main.dict string (option string))) :
  forall (known : string -> string -> string -> option string -> Prop)
         (categories : Parsers.Categories),
    table_inv known categories ->
    table_inv (fun pg c p n =>
                 known pg c p n \/
                 (pg = page /\ exists patterns,
                     (c, patterns) ∈ page_categories /\ (p, n) ∈ patterns))
      (Main.load_page page categories page_categories).
Proof.
  unfold Main.load_page.
  induction page_categories as [|[category patterns] rest IH];
    intros known categories Hinv; simpl.
  - eapply table_inv_weaken; [|exact Hinv].
    intros pg c p n. split; [intros Hk; left; exact Hk|].
    intros [Hk|(_ & ps & Hin & _)]; [exact Hk|]. apply elem_of_nil in Hin. destruct Hin.
  - eapply table_inv_weaken;
      [|apply IH; apply (load_patterns_inv page category patterns known categories), Hinv].
    intros pg c p n. split.
    + intros [[Hk|(-> & -> & Hin)]|(-> & ps & Hc & Hin)].
      * left. exact Hk.
      * right. split; [reflexivity|]. exists patterns. split; [left|exact Hin].
      * right. split; [reflexivity|]. exists ps. split; [right; exact Hc|exact Hin].
    + intros [Hk|(-> & ps & Hc & Hin)]; [left; left; exact Hk|].
      apply elem_of_cons in Hc as [Hc|Hc].
      * injection Hc as -> ->. left. right. repeat split. exact Hin.
      * right. split; [reflexivity|]. exists ps. split; assumption.
Qed.

Lemma load_config_inv (config : Main.Config) :
  forall (known : string -> string -> string -> option string -> Prop)
         (categories : Parsers.Categories),
    table_inv known categories ->
    table_inv (fun pg c p n => known pg c p n \/ configured config pg c p n)
      (foldl (fun categories entry =>
                let '(page, page_categories) := entry in
                Main.load_page page categories page_categories)
         categories config).
Proof.
  induction config as [|[page page_categories] rest IH]; intros known categories Hinv;
    simpl.
  - eapply table_inv_weaken; [|exact Hinv].
    intros pg c p n. split; [intros Hk; left; exact Hk|].
    intros [Hk|(pcs & ps & Hin & _)]; [exact Hk|]. apply elem_of_nil in Hin. destruct Hin.
  - eapply table_inv_weaken;
      [|apply IH; apply (load_page_inv page page_categories known categories), Hinv].
    intros pg c p n. split.
    + intros [[Hk|(-> & ps & Hc & Hin)]|(pcs & ps & Hpg & Hc & Hin)].
      * left. exact Hk.
      * right. exists page_categories, ps. split; [left|split; assumption].
      * right. exists pcs, ps. split; [right; exact Hpg|split; assumption].
    + intros [Hk|(pcs & ps & Hpg & Hc & Hin)]; [left; left; exact Hk|].
      apply elem_of_cons in Hpg as [Hpg|Hpg].
      * injection Hpg as -> ->. left. right. split; [reflexivity|].
        exists ps. split; assumption.
      * right. exists pcs, ps. split; [exact Hpg|split; assumption].
Qed.

(** X15: [load_categories] builds a table in which no pattern occurs twice;
    every entry stands for a pattern of the configuration, under its page
    and category, with the configured friendly name, or the pattern itself
    where the configuration says [null]; and every configured pattern has
    an entry. *)
Theorem load_categories_entries (config : Main.Config) :
  NoDup (map fst (Main.load_categories config)) /\
  (forall pattern page category friendly,
      (pattern, (page, category, friendly)) ∈ Main.load_categories config ->
      exists name, configured config page category pattern name /\
                   friendly = default pattern name) /\
  (forall page category pattern name,
      configured config page category pattern name ->
      is_Some (Main.get pattern (Main.load_categories config))).
Proof.
  unfold Main.load_categories.
  pose proof (load_config_inv config (fun _ _ _ _ => False) []) as Hinv.
  eapply table_inv_weaken in Hinv.
  - exact Hinv.
  - intros pg c p n. split; [intros [[]|Hk]; exact Hk|intros Hk; right; exact Hk].
  - split; [constructor|]. split.
    + intros p pg c f Hin. apply elem_of_nil in Hin. destruct Hin.
    + intros pg c p n [].
Qed.

(** The expenses that belong in [report[y][p][c]]. *)
Definition in_bucket (y : Z) (p c : string) (expense : Obj) : bool :=
  match date (val expense) with
  | DDate d =>
      bool_decide (d_year d = y) && bool_decide (page (val expense) = p)
      && bool_decide (category (val expense) = c)
  | _ => false
  end.

Lemma add_expense_bucket (report report' : Main.Report) (expense : Obj) :
  Main.add_expense report expense = Some report' ->
  forall y p c,
    Main.bucket report' y p c =
    Main.bucket report y p c ++ (if in_bucket y p c expense then [expense] else []).
Proof.
  unfold Main.add_expense, in_bucket.
  destruct (date (val expense)) as [|d|s]; try discriminate.
  intros [= <-] y p c. unfold Main.bucket.
  destruct (decide (d_year d = y)) as [Hy|Hy].
  - rewrite Hy, get_set_eq. rewrite (bool_decide_eq_true_2 _ eq_refl). simpl.
    destruct (decide (page (val expense) = p)) as [Hp|Hp].
    + rewrite Hp, get_set_eq. rewrite (bool_decide_eq_true_2 _ eq_refl). simpl.
      destruct (decide (category (val expense) = c)) as [Hc|Hc].
      * rewrite Hc, get_set_eq. rewrite (bool_decide_eq_true_2 _ eq_refl). reflexivity.
      * rewrite get_set_ne by exact Hc.
        rewrite (bool_decide_eq_false_2 _ Hc), app_nil_r. reflexivity.
    + rewrite get_set_ne by exact Hp.
      rewrite (bool_decide_eq_false_2 _ Hp). simpl. rewrite app_nil_r. reflexivity.
  - rewrite get_set_ne by exact Hy.
    rewrite (bool_decide_eq_false_2 _ Hy). simpl. rewrite app_nil_r. reflexivity.
Qed.

Lemma report_loop_bucket (expenses : list Obj) :
  forall report report',
    Main.report_loop report expenses = Some report' ->
    forall y p c,
      Main.bucket report' y p c =
      Main.bucket report y p c ++ List.filter (in_bucket y p c) expenses.
Proof.
  induction expenses as [|e rest IH]; intros report report'; simpl.
  - intros [= <-] y p c. rewrite app_nil_r. reflexivity.
  - destruct (Main.add_expense report e) as [r1|] eqn:Ha; [|discriminate].
    intros Hl y p c. rewrite (IH _ _ Hl), (add_expense_bucket _ _ _ Ha).
    rewrite <- app_assoc. destruct (in_bucket y p c e); reflexivity.
Qed.

(** X16: The report groups without losing, repeating or reordering: the list
    under a year, page and category holds exactly the expenses of the input
    with that year, page and category, in the order of the input. *)
Theorem generate_report_buckets (expenses : list Obj) (report : Main.Report) :
  Main.generate_report expenses = Some report ->
  forall y p c,
    Main.bucket report y p c = List.filter (in_bucket y p c) expenses.
Proof.
  intros Hr y p c. apply (report_loop_bucket expenses [] report Hr).
Qed.

Lemma report_loop_None (expenses : list Obj) :
  forall report,
    Main.report_loop report expenses = None <->
    Exists (fun e => forall d, date (val e) <> DDate d) expenses.
Proof.
  induction expenses as [|e rest IH]; intros report; simpl.
  - split; [discriminate|]. intros H. apply Exists_nil in H. destruct H.
  - unfold Main.add_expense at 1.
    destruct (date (val e)) as [|d|s] eqn:Hd.
    + split; [|reflexivity]. intros _. left. intros d. rewrite Hd. discriminate.
    + rewrite IH. split.
      * intros H. right. exact H.
      * intros H. apply Exists_cons in H as [H|H]; [|exact H].
        exfalso. apply (H d). exact Hd.
    + split; [|reflexivity]. intros _. left. intros d. rewrite Hd. discriminate.
Qed.

(** X17: [generate_report] fails exactly when some expense has no calendar date;
    so a single record whose date the page scanner filled with [''] makes
    the report of the whole run fail. *)
Theorem generate_report_needs_dates (expenses : list Obj) :
  (Main.generate_report expenses = None <->
   Exists (fun e => forall d, date (val e) <> DDate d) expenses) /\
  (forall e y, e ∈ expenses -> blank_expense y (val e) ->
               Main.generate_report expenses = None).
Proof.
  split; [apply report_loop_None|].
  intros e y Hin [Hd _]. apply report_loop_None.
  apply Exists_exists. exists e. split; [exact Hin|].
  intros d. rewrite Hd. discriminate.
Qed.

End MainFacts.

(** X18: From the expenses of the statements to the report, as [get_expenses]
    and [generate_report] are chained.  When every record has a calendar
    date, the resolver returns and so does the report; and every record of
    the input without a virtual-debit id is found in the report under its
    own year, page and category. *)
Theorem report_keeps_records_without_id (expenses : list Resolver.Obj) :
  Forall (fun o => exists d, date (Resolver.val o) = DDate d) expenses ->
  exists kept report,
    Resolver.filter_visa_debit_corrections expenses = Resolver.Returned kept /\
    Main.generate_report kept = Some report /\
    forall e d,
      e ∈ expenses ->
      visa_debit_id (Resolver.val e) = None ->
      date (Resolver.val e) = DDate d ->
      e ∈ Main.bucket report (d_year d) (page (Resolver.val e))
            (category (Resolver.val e)).
Proof.
  intros Hall.
  assert (Hok : Forall (fun o => tag_dated o = true) expenses).
  { eapply Forall_impl; [exact Hall|]. intros o [d Hd]. unfold tag_dated, Resolver.str_ok.
    rewrite Hd. destruct (visa_debit_id (Resolver.val o)); reflexivity. }
  destruct (scan_returns 0 ∅ expenses Hok) as [kept Hkept].
  assert (Hsub : kept `sublist_of` expenses).
  { pose proof (scan_sublist 0 ∅ expenses) as H. rewrite Hkept in H. exact H. }
  destruct (Main.generate_report kept) as [report|] eqn:Hr.
  - exists kept, report. split; [exact Hkept|]. split; [exact Hr|].
    intros e d Hin Hid Hd.
    rewrite (report_loop_bucket kept [] report Hr). simpl.
    apply list_elem_of_In, filter_In. split.
    + apply list_elem_of_In.
      assert (Hf : e ∈ filter untagged
                     (Resolver.left_in (Resolver.filter_visa_debit_corrections expenses))).
      { rewrite resolver_untagged_sublist. apply list_elem_of_filter. split; assumption. }
      apply list_elem_of_filter in Hf as [_ Hf].
      unfold Resolver.filter_visa_debit_corrections in Hf. rewrite Hkept in Hf. exact Hf.
    + unfold in_bucket. rewrite Hd.
      rewrite !(bool_decide_eq_true_2 _ eq_refl). reflexivity.
  - exfalso. apply report_loop_None in Hr. apply Exists_exists in Hr as (o & Ho & Hbad).
    rewrite Forall_forall in Hall.
    destruct (Hall o) as [d Hd]; [eapply elem_of_sublist; eassumption|].
    exact (Hbad d Hd).
Qed.

Lemma generate_report_buckets_witness :
  exists report,
    Main.generate_report
      [Samples.dated 1 (mkDate 2022 12 28) "Food" "Dining";
       Samples.dated 2 (mkDate 2023 1 3) "Bank" "Fees";
       Samples.dated 3 (mkDate 2022 12 30) "Food" "Dining"] = Some report /\
    Main.bucket report 2022 "Food" "Dining"
    = [Samples.dated 1 (mkDate 2022 12 28) "Food" "Dining";
       Samples.dated 3 (mkDate 2022 12 30) "Food" "Dining"].
Proof.
  match eval vm_compute in
        (Main.generate_report
           [Samples.dated 1 (mkDate 2022 12 28) "Food" "Dining";
            Samples.dated 2 (mkDate 2023 1 3) "Bank" "Fees";
            Samples.dated 3 (mkDate 2022 12 30) "Food" "Dining"])
  with
  | Some ?r => exists r
  end.
  split; [vm_compute; reflexivity|].
  apply (generate_report_buckets
           [Samples.dated 1 (mkDate 2022 12 28) "Food" "Dining";
            Samples.dated 2 (mkDate 2023 1 3) "Bank" "Fees";
            Samples.dated 3 (mkDate 2022 12 30) "Food" "Dining"]).
  vm_compute. reflexivity.
Defined.

Lemma report_keeps_records_without_id_witness :
  exists kept report,
    Resolver.filter_visa_debit_corrections
      [Samples.dated 1 (mkDate 2022 12 28) "Food" "Dining";
       Samples.purchase 2 "111"; Samples.correction 3 "111";
       Samples.dated 4 (mkDate 2023 1 3) "Bank" "Fees"] = Resolver.Returned kept /\
    Main.generate_report kept = Some report /\
    Samples.dated 4 (mkDate 2023 1 3) "Bank" "Fees"
    ∈ Main.bucket report 2023 "Bank" "Fees".
Proof.
  destruct (report_keeps_records_without_id
              [Samples.dated 1 (mkDate 2022 12 28) "Food" "Dining";
               Samples.purchase 2 "111"; Samples.correction 3 "111";
               Samples.dated 4 (mkDate 2023 1 3) "Bank" "Fees"])
    as (kept & report & Hkept & Hreport & Hin).
  - repeat constructor; eexists; reflexivity.
  - exists kept, report. split; [exact Hkept|]. split; [exact Hreport|].
    apply (Hin (Samples.dated 4 (mkDate 2023 1 3) "Bank" "Fees") (mkDate 2023 1 3)).
    + do 3 right. left.
    + reflexivity.
    + reflexivity.
Defined.

(** ** Dates, line numbers and whole statements *)

Section StatementMore.

Lemma main_money_track_date_keeps_date (self self' : Parser) (l : string) :
  MyMainMoney.track_date self l = Ok self' ->
  is_Some (current_date self) -> is_Some (current_date self').
Proof.
  unfold MyMainMoney.track_date.
  destruct (Re.re_match MyMainMoney.date_regex l); [|intros [= <-] H; exact H].
  destruct (strptime _) as [new_date|]; simpl; [|discriminate].
  intros [= <-] _. simpl. eauto.
Qed.

(** A record with a calendar date. *)
Definition dated_expense (e : Expense) : Prop := exists d, date e = DDate d.
Definition dated_nsf (n : NSF) : Prop := exists d, nsf_date n = DDate d.

Lemma main_money_step_dated (s s' : Scan) (n : Z) (line_item : string) :
  is_Some (current_date (parser s)) /\
  Forall dated_expense (processed_expenses s) /\ Forall dated_nsf (processed_nsfs s) ->
  page_step MyMainMoney.format s n line_item = Ok s' ->
  is_Some (current_date (parser s')) /\
  Forall dated_expense (processed_expenses s') /\ Forall dated_nsf (processed_nsfs s').
Proof.
  intros (Hd & He & Hn). unfold page_step.
  destruct (String.eqb line_item (start_of_items MyMainMoney.format));
    [intros [= <-]; repeat split; assumption|].
  destruct (negb (found_start s)); [intros [= <-]; repeat split; assumption|].
  simpl. unfold MyMainMoney.process_line.
  destruct (MyMainMoney.track_date (parser s) line_item) as [self1|] eqn:Ht;
    simpl; [|discriminate].
  apply main_money_track_date_keeps_date in Ht; [|exact Hd].
  destruct Ht as [d1 Hd1].
  destruct (Re.re_match MyMainMoney.nsf_regex line_item) as [nsf_match|]; simpl.
  { rewrite Hd1. simpl. intros [= <-]. simpl.
    repeat split; [eauto|exact He|].
    apply Forall_app. split; [exact Hn|]. repeat constructor. exists d1. reflexivity. }
  destruct (find_category (categories self1) line_item)
    as [[pattern [[pg cat] friendly_name]]|]; simpl;
    [|intros [= <-]; simpl; repeat split; [eauto|exact He|exact Hn]].
  destruct (Re.re_search MyMainMoney.dollar_regex line_item); simpl; [|discriminate].
  rewrite Hd1. simpl.
  destruct (0 <? String.length friendly_name)%nat; intros [= <-]; simpl;
    (repeat split; [eauto| |exact Hn]); [|exact He].
  apply Forall_app. split; [exact He|]. repeat constructor. exists d1. reflexivity.
Qed.

(** X9: Format A never loses the date: once the parser holds a current date,
    every expense and every NSF a page returns carries a calendar date (so
    none is filled with ['']), and the parser still holds a date after the
    page. *)
Theorem main_money_dated_once_set
  (self : Parser) (lines : list string) (previous : string)
  (expenses : list Expense) (nsfs : list NSF) (last : string) (self' : Parser) :
  is_Some (current_date self) ->
  process_page_lines MyMainMoney.format self lines previous
    = Ok (expenses, nsfs, last, self') ->
  is_Some (current_date self') /\
  Forall dated_expense expenses /\ Forall dated_nsf nsfs.
Proof.
  intros Hd. unfold process_page_lines.
  destruct (page_loop MyMainMoney.format (mkScan self false previous [] []) 1 lines)
    as [s|] eqn:Hl; simpl; [|discriminate].
  intros [= <- <- _ <-]. revert Hl.
  apply (page_loop_invariant MyMainMoney.format
           (fun s => is_Some (current_date (parser s)) /\
                     Forall dated_expense (processed_expenses s) /\
                     Forall dated_nsf (processed_nsfs s))).
  - intros s0 n x s1 Hinv Hs. eapply main_money_step_dated; eassumption.
  - simpl. repeat split; [exact Hd|constructor|constructor].
Qed.

Lemma main_money_step_line_number (s s' : Scan) (n : Z) (line_item : string) :
  Forall (fun e => line_number e = 0) (processed_expenses s) /\
  Forall (fun x => nsf_line_number x = 0) (processed_nsfs s) ->
  page_step MyMainMoney.format s n line_item = Ok s' ->
  Forall (fun e => line_number e = 0) (processed_expenses s') /\
  Forall (fun x => nsf_line_number x = 0) (processed_nsfs s').
Proof.
  intros (He & Hn). unfold page_step.
  destruct (String.eqb line_item (start_of_items MyMainMoney.format));
    [intros [= <-]; split; assumption|].
  destruct (negb (found_start s)); [intros [= <-]; split; assumption|].
  simpl. unfold MyMainMoney.process_line.
  destruct (MyMainMoney.track_date (parser s) line_item) as [self1|];
    simpl; [|discriminate].
  destruct (Re.re_match MyMainMoney.nsf_regex line_item) as [nsf_match|]; simpl.
  { destruct (truthy (date_attr (current_date self1))); intros [= <-]; simpl;
      (split; [exact He|]); apply Forall_app; split; try exact Hn;
      repeat constructor. }
  destruct (find_category (categories self1) line_item)
    as [[pattern [[pg cat] friendly_name]]|]; simpl;
    [|intros [= <-]; simpl; split; assumption].
  destruct (Re.re_search MyMainMoney.dollar_regex line_item); simpl; [|discriminate].
  destruct (truthy (date_attr (current_date self1))); simpl;
    destruct (0 <? String.length friendly_name)%nat; intros [= <-]; simpl;
    (split; [|exact Hn]); try exact He;
    apply Forall_app; split; try exact He; repeat constructor.
Qed.

(** X10: Format A never records where a line was: every expense and NSF of a
    page keeps the class default 0 as its line number, whatever line it
    came from. *)
Theorem main_money_records_have_no_line_number
  (self : Parser) (lines : list string) (previous : string)
  (expenses : list Expense) (nsfs : list NSF) (last : string) (self' : Parser) :
  process_page_lines MyMainMoney.format self lines previous
    = Ok (expenses, nsfs, last, self') ->
  Forall (fun e => line_number e = 0) expenses /\
  Forall (fun x => nsf_line_number x = 0) nsfs.
Proof.
  unfold process_page_lines.
  destruct (page_loop MyMainMoney.format (mkScan self false previous [] []) 1 lines)
    as [s|] eqn:Hl; simpl; [|discriminate].
  intros [= <- <- _ _]. revert Hl.
  apply (page_loop_invariant MyMainMoney.format
           (fun s => Forall (fun e => line_number e = 0) (processed_expenses s) /\
                     Forall (fun x => nsf_line_number x = 0) (processed_nsfs s))).
  - intros s0 n x s1 Hinv Hs. eapply main_money_step_line_number; eassumption.
  - simpl. split; constructor.
Qed.

End StatementMore.

(** *** Format B: where a record comes from *)

Section VisaProvenance.

(** What a turn of Format B does, with the number [j] of lines the
    lookahead has taken from the iterator. *)
Lemma visa_turn_cases (c c' : VISAAvionUnlimited.Cursor) (current : string) :
  VISAAvionUnlimited.turn c current = Ok c' ->
  exists j : nat,
    VISAAvionUnlimited.line_number c'
    = VISAAvionUnlimited.line_number c + Z.of_nat j + 1 /\
    VISAAvionUnlimited.line_item c'
    = fst (VISAAvionUnlimited.get_next_line (drop j (VISAAvionUnlimited.line_items_itr c))) /\
    VISAAvionUnlimited.line_items_itr c'
    = snd (VISAAvionUnlimited.get_next_line (drop j (VISAAvionUnlimited.line_items_itr c))) /\
    ((j = 0%nat /\
      VISAAvionUnlimited.processed_lines c' = VISAAvionUnlimited.processed_lines c /\
      (VISAAvionUnlimited.self c' = VISAAvionUnlimited.self c \/
       exists item,
         VISAAvionUnlimited.process_line (VISAAvionUnlimited.self c)
           (VISAAvionUnlimited.line_number c) current
           (VISAAvionUnlimited.previous_line_item c)
         = Ok (VISAAvionUnlimited.self c', item))) \/
     (exists e a l',
         (j = 1 \/ j = 2)%nat /\
         VISAAvionUnlimited.process_line (VISAAvionUnlimited.self c)
           (VISAAvionUnlimited.line_number c) current
           (VISAAvionUnlimited.previous_line_item c)
         = Ok (VISAAvionUnlimited.self c', Some (IExpense e)) /\
         VISAAvionUnlimited.line_items_itr c !! (j - 1)%nat = Some l' /\
         VISAAvionUnlimited.dollar_amount l' = Some a /\
         VISAAvionUnlimited.processed_lines c'
         = VISAAvionUnlimited.processed_lines c
             ++ [VISAAvionUnlimited.set_amount
                   (VISAAvionUnlimited.backfill_date e) a])).
Proof.
  unfold VISAAvionUnlimited.turn.
  destruct (String.eqb current (start_of_items VISAAvionUnlimited.format)).
  { intros [= <-]. exists 0%nat. simpl. rewrite Z.add_0_r.
    repeat split. left. repeat split. left. reflexivity. }
  destruct (negb (VISAAvionUnlimited.found_start c)).
  { intros [= <-]. exists 0%nat. simpl. rewrite Z.add_0_r.
    repeat split. left. repeat split. left. reflexivity. }
  destruct (VISAAvionUnlimited.process_line (VISAAvionUnlimited.self c)
              (VISAAvionUnlimited.line_number c) current
              (VISAAvionUnlimited.previous_line_item c))
    as [[self1 item]|] eqn:Hp; simpl; [|discriminate].
  assert (Hplain :
            forall found,
              Ok (VISAAvionUnlimited.advance c self1 found 1 current
                    (VISAAvionUnlimited.processed_lines c)
                    (VISAAvionUnlimited.line_items_itr c)) = Ok c' ->
              exists j : nat,
                VISAAvionUnlimited.line_number c'
                = VISAAvionUnlimited.line_number c + Z.of_nat j + 1 /\
                VISAAvionUnlimited.line_item c'
                = fst (VISAAvionUnlimited.get_next_line
                         (drop j (VISAAvionUnlimited.line_items_itr c))) /\
                VISAAvionUnlimited.line_items_itr c'
                = snd (VISAAvionUnlimited.get_next_line
                         (drop j (VISAAvionUnlimited.line_items_itr c))) /\
                ((j = 0%nat /\
                  VISAAvionUnlimited.processed_lines c'
                  = VISAAvionUnlimited.processed_lines c /\
                  (VISAAvionUnlimited.self c' = VISAAvionUnlimited.self c \/
                   exists item0,
                     Ok (self1, item) = Ok (VISAAvionUnlimited.self c', item0))) \/
                 (exists e a l',
                     (j = 1 \/ j = 2)%nat /\
                     Ok (self1, item)
                     = Ok (VISAAvionUnlimited.self c', Some (IExpense e)) /\
                     VISAAvionUnlimited.line_items_itr c !! (j - 1)%nat = Some l' /\
                     VISAAvionUnlimited.dollar_amount l' = Some a /\
                     VISAAvionUnlimited.processed_lines c'
                     = VISAAvionUnlimited.processed_lines c
                         ++ [VISAAvionUnlimited.set_amount
                               (VISAAvionUnlimited.backfill_date e) a]))).
  { intros found [= <-]. exists 0%nat. simpl. rewrite Z.add_0_r.
    repeat split. left. repeat split. right. exists item. reflexivity. }
  destruct item as [[e|nsf]|]; try (apply Hplain).
  destruct (0 <? String.length (line (VISAAvionUnlimited.backfill_date e)))%nat;
    [|apply Hplain].
  clear Hplain. rewrite lookahead_from_1.
  destruct (VISAAvionUnlimited.line_items_itr c) as [|l1 t1] eqn:Hitr; simpl;
    [discriminate|].
  destruct (VISAAvionUnlimited.dollar_amount l1) as [a|] eqn:H1; simpl.
  { intros [= <-]. exists 1%nat. simpl. repeat split; [lia|].
    right. exists e, a, l1. repeat split; try reflexivity. left. reflexivity. exact H1. }
  destruct t1 as [|l2 t2]; simpl; [discriminate|].
  destruct (VISAAvionUnlimited.dollar_amount l2) as [a|] eqn:H2; simpl; [|discriminate].
  intros [= <-]. exists 2%nat. simpl. repeat split; [lia|].
  right. exists e, a, l2. repeat split; try reflexivity. right. reflexivity. exact H2.
Qed.

Lemma visa_process_line_expense (self self' : Parser) (n : Z) (l previous : string)
  (e : Expense) :
  VISAAvionUnlimited.process_line self n l previous = Ok (self', Some (IExpense e)) ->
  line_number e = n /\ amount e = 0 /\
  exists pattern,
    contains pattern l = true /\
    (pattern, (page e, category e, line e)) ∈ categories self.
Proof.
  unfold VISAAvionUnlimited.process_line.
  destruct (VISAAvionUnlimited.track_date self l) as [self1|] eqn:Ht; simpl;
    [|discriminate].
  apply visa_track_date_year in Ht as [_ Hc].
  destruct (find_category (categories self1) l) as [[pattern [[pg cat] friendly]]|] eqn:Hf;
    [|discriminate].
  intros [= <- <-]. simpl. repeat split.
  apply find_category_Some in Hf as [Hin Hcon]. rewrite Hc in Hin.
  exists pattern. split; assumption.
Qed.

(** A record of Format B that stands for a line of the page: its line
    number is the place of a line in which a pattern of the table occurs,
    it carries that entry's page, category and label, and its amount is
    the trailing amount of the first or second line after it. *)
Definition from_page (cats : Categories) (lines : list string) (e : Expense) : Prop :=
  1 <= line_number e /\
  exists pattern l j l',
    lines !! Z.to_nat (line_number e - 1) = Some l /\
    contains pattern l = true /\
    (pattern, (page e, category e, line e)) ∈ cats /\
    (j = 1 \/ j = 2)%nat /\
    lines !! (Z.to_nat (line_number e - 1) + j)%nat = Some l' /\
    VISAAvionUnlimited.dollar_amount l' = Some (amount e).

(** The cursor is where its line number says. *)
Definition cursor_inv (cats : Categories) (lines : list string)
  (c : VISAAvionUnlimited.Cursor) : Prop :=
  1 <= VISAAvionUnlimited.line_number c /\
  (forall current,
      VISAAvionUnlimited.line_item c = Some current ->
      drop (Z.to_nat (VISAAvionUnlimited.line_number c - 1)) lines
      = current :: VISAAvionUnlimited.line_items_itr c) /\
  categories (VISAAvionUnlimited.self c) = cats /\
  Forall (from_page cats lines) (VISAAvionUnlimited.processed_lines c).

Lemma get_next_line_drop (lines itr : list string) (k : nat) (x : string) :
  drop k lines = itr ->
  fst (VISAAvionUnlimited.get_next_line itr) = Some x ->
  drop k lines = x :: snd (VISAAvionUnlimited.get_next_line itr).
Proof.
  intros ->. destruct itr as [|y rest]; simpl; [discriminate|].
  intros [= ->]. reflexivity.
Qed.

Lemma cursor_inv_turn (cats : Categories) (lines : list string)
  (c c' : VISAAvionUnlimited.Cursor) (current : string) :
  cursor_inv cats lines c ->
  VISAAvionUnlimited.line_item c = Some current ->
  VISAAvionUnlimited.turn c current = Ok c' ->
  cursor_inv cats lines c'.
Proof.
  intros (Hpos & Hdrop & Hcats & Hrec) Hcur Ht.
  specialize (Hdrop current Hcur).
  apply visa_turn_cases in Ht as (j & Hn & Hitem & Hitr & Hcase).
  set (k := Z.to_nat (VISAAvionUnlimited.line_number c - 1)) in *.
  assert (Hk : Z.to_nat (VISAAvionUnlimited.line_number c' - 1) = (k + 1 + j)%nat)
    by (unfold k; lia).
  assert (Hd' : drop (k + 1 + j) lines = drop j (VISAAvionUnlimited.line_items_itr c)).
  { rewrite <- drop_drop, <- drop_drop, Hdrop. reflexivity. }
  assert (Hat : forall i x, VISAAvionUnlimited.line_items_itr c !! i = Some x ->
                            lines !! (k + S i)%nat = Some x).
  { intros i x Hx. rewrite <- lookup_drop, Hdrop. exact Hx. }
  assert (Hhere : lines !! k = Some current).
  { rewrite <- (Nat.add_0_r k), <- lookup_drop, Hdrop. reflexivity. }
  split; [lia|]. split.
  { intros x Hx. rewrite Hk, Hitr. rewrite Hitem in Hx.
    apply get_next_line_drop; assumption. }
  destruct Hcase as [(-> & Hproc & Hself)|(e & a & l' & Hj & Hpl & Hl' & Ha & Hproc)].
  - split; [|rewrite Hproc; exact Hrec].
    destruct Hself as [->|[item Hpl]]; [exact Hcats|].
    apply visa_process_line_year in Hpl as [_ ->]. exact Hcats.
  - pose proof (visa_process_line_year _ _ _ _ _ _ Hpl) as [_ Hc'].
    split; [rewrite Hc'; exact Hcats|].
    rewrite Hproc. apply Forall_app. split; [exact Hrec|]. apply Forall_singleton.
    apply visa_process_line_expense in Hpl as (Hln & _ & pattern & Hcon & Hin).
    assert (Hsame : forall x : Expense,
               let r := VISAAvionUnlimited.set_amount
                          (VISAAvionUnlimited.backfill_date x) a in
               line_number r = line_number x /\ page r = page x /\
               category r = category x /\ line r = line x /\ amount r = a).
    { intros x. unfold VISAAvionUnlimited.set_amount, VISAAvionUnlimited.backfill_date.
      destruct (truthy (date x)); simpl; repeat split. }
    destruct (Hsame e) as (E1 & E2 & E3 & E4 & E5).
    unfold from_page. rewrite E1, Hln. fold k.
    split; [exact Hpos|].
    exists pattern, current, j, l'. rewrite E2, E3, E4, E5. rewrite Hcats in Hin.
    repeat split; try assumption.
    replace (k + j)%nat with (k + S (j - 1))%nat by lia.
    apply Hat, Hl'.
Qed.

(** X14: Every expense Format B returns for a page points at its line: the
    stored line number is the place, counted from 1, of a line of the page
    in which a pattern of the category table occurs; the record carries the
    page, category and label of that entry; and its amount is the trailing
    amount of the first or second line after it. *)
Theorem visa_expenses_point_at_their_lines
  (self : Parser) (lines : list string) (previous : string)
  (expenses : list Expense) (nsfs : list NSF) (last : string) (self' : Parser) :
  VISAAvionUnlimited.process_page_lines self lines previous
    = Ok (expenses, nsfs, last, self') ->
  Forall (from_page (categories self) lines) expenses.
Proof.
  unfold VISAAvionUnlimited.process_page_lines.
  destruct lines as [|first itr] eqn:Hlines; [discriminate|].
  destruct (VISAAvionUnlimited.loop _) as [c|] eqn:Hl; simpl; [|discriminate].
  unfold VISAAvionUnlimited.cursor_result. intros [= <- _ _ _].
  assert (Hinv : cursor_inv (categories self) (first :: itr) c).
  { revert Hl. apply (loop_invariant (cursor_inv (categories self) (first :: itr))).
    - intros c0 current c1. apply cursor_inv_turn.
    - unfold cursor_inv. simpl. split; [lia|]. split; [|split; [reflexivity|constructor]].
      intros current [= ->]. reflexivity. }
  destruct Hinv as (_ & _ & _ & H). exact H.
Qed.

End VisaProvenance.

Lemma visa_expenses_point_at_their_lines_witness :
  exists expenses nsfs last self',
    VISAAvionUnlimited.process_page_lines Samples.sample_parser
      [start_of_items VISAAvionUnlimited.format; "DEC 28 DEC 29 OVERLIMIT FEE"; "$29.00";
       "JAN 03 JAN 04 COFFEE SHOP"; "TORONTO ON"; "$4.50"] ""
    = Ok (expenses, nsfs, last, self') /\
    List.length expenses = 2%nat /\
    Forall (from_page Samples.sample_categories
              [start_of_items VISAAvionUnlimited.format; "DEC 28 DEC 29 OVERLIMIT FEE";
               "$29.00"; "JAN 03 JAN 04 COFFEE SHOP"; "TORONTO ON"; "$4.50"]) expenses.
Proof.
  match eval vm_compute in
        (VISAAvionUnlimited.process_page_lines Samples.sample_parser
           [start_of_items VISAAvionUnlimited.format; "DEC 28 DEC 29 OVERLIMIT FEE";
            "$29.00"; "JAN 03 JAN 04 COFFEE SHOP"; "TORONTO ON"; "$4.50"] "")
  with
  | Ok (?es, ?ns, ?l, ?p) => exists es, ns, l, p
  end.
  split; [vm_compute; reflexivity|]. split; [reflexivity|].
  eapply (visa_expenses_point_at_their_lines Samples.sample_parser
            [start_of_items VISAAvionUnlimited.format; "DEC 28 DEC 29 OVERLIMIT FEE";
             "$29.00"; "JAN 03 JAN 04 COFFEE SHOP"; "TORONTO ON"; "$4.50"] "").
  vm_compute. reflexivity.
Defined.

(** ** Whole statements *)

Section StatementFacts.

Lemma process_pages_skip (F : Format) (page : list string) :
  start_of_items F ∉ page ->
  forall (before after : list (list string)) (parser : Parser) (previous : string)
         (pages_expenses : list Expense) (pages_nsfs : list NSF),
    Main.process_pages (process_page_lines F) parser (before ++ page :: after)
      previous pages_expenses pages_nsfs
    = Main.process_pages (process_page_lines F) parser (before ++ after)
        previous pages_expenses pages_nsfs.
Proof.
  intros Hno before after.
  induction before as [|p before IH]; intros parser previous es ns; simpl.
  - unfold process_page_lines at 1. rewrite <- (app_nil_r page).
    rewrite page_loop_before_header; [|reflexivity|exact Hno].
    simpl. rewrite !app_nil_r. reflexivity.
  - destruct (process_page_lines F parser p previous) as [[[[es1 ns1] last] parser1]|];
      simpl; [|reflexivity].
    apply IH.
Qed.

(** X19: With the shared page scanner, a page that never shows the header can
    be taken out of a statement without changing its result: the records,
    the parser after the last page, or the exception raised.  Such a page
    yields nothing and hands the previous line on, so a virtual-debit
    header at the end of the page before still tags the first expense of
    the page after. *)
Theorem statement_skips_pages_without_header
  (F : Format) (categories : Categories) (statement_date : Date)
  (before after : list (list string)) (page : list string) :
  start_of_items F ∉ page ->
  Main.process_statement (process_page_lines F) categories statement_date
    (before ++ page :: after)
  = Main.process_statement (process_page_lines F) categories statement_date
      (before ++ after).
Proof.
  intros Hno. unfold Main.process_statement. apply process_pages_skip. exact Hno.
Qed.

End StatementFacts.

Lemma statement_skips_pages_without_header_witness :
  Main.process_statement (process_page_lines MyMainMoney.format)
    Samples.sample_categories (mkDate 2023 1 5)
    ([[start_of_items MyMainMoney.format; "28 Dec Visa Debit correction - 1234"]]
       ++ ["Page 2 of 3"; "Important information"]
       :: [[start_of_items MyMainMoney.format; "COFFEE SHOP 4.50"]])
  = Main.process_statement (process_page_lines MyMainMoney.format)
      Samples.sample_categories (mkDate 2023 1 5)
      ([[start_of_items MyMainMoney.format; "28 Dec Visa Debit correction - 1234"]]
         ++ [[start_of_items MyMainMoney.format; "COFFEE SHOP 4.50"]]).
Proof.
  apply (statement_skips_pages_without_header MyMainMoney.format
           Samples.sample_categories (mkDate 2023 1 5)
           [[start_of_items MyMainMoney.format; "28 Dec Visa Debit correction - 1234"]]
           [[start_of_items MyMainMoney.format; "COFFEE SHOP 4.50"]]
           ["Page 2 of 3"; "Important information"]).
  not_in_list.
Defined.

Lemma main_money_dated_once_set_witness :
  exists expenses nsfs last self',
    process_page_lines MyMainMoney.format
      (set_current_date Samples.sample_parser (Some (mkDate 2022 12 28)))
      [start_of_items MyMainMoney.format; "COFFEE SHOP 4.50";
       "Item returned NSF 1,000.55"] ""
    = Ok (expenses, nsfs, last, self') /\
    List.length expenses = 1%nat /\ List.length nsfs = 1%nat /\
    is_Some (current_date self') /\
    Forall dated_expense expenses /\ Forall dated_nsf nsfs.
Proof.
  match eval vm_compute in
        (process_page_lines MyMainMoney.format
           (set_current_date Samples.sample_parser (Some (mkDate 2022 12 28)))
           [start_of_items MyMainMoney.format; "COFFEE SHOP 4.50";
            "Item returned NSF 1,000.55"] "")
  with
  | Ok (?es, ?ns, ?l, ?p) => exists es, ns, l, p
  end.
  split; [vm_compute; reflexivity|]. split; [reflexivity|]. split; [reflexivity|].
  eapply (main_money_dated_once_set
            (set_current_date Samples.sample_parser (Some (mkDate 2022 12 28)))
            [start_of_items MyMainMoney.format; "COFFEE SHOP 4.50";
             "Item returned NSF 1,000.55"] "").
  - simpl. eauto.
  - vm_compute. reflexivity.
Defined.

Lemma main_money_records_have_no_line_number_witness :
  exists expenses nsfs last self',
    process_page_lines MyMainMoney.format Samples.sample_parser
      ["Page 1 of 3"; start_of_items MyMainMoney.format; "28 Dec COFFEE SHOP 4.50";
       "Item returned NSF 1,000.55"] ""
    = Ok (expenses, nsfs, last, self') /\
    List.length expenses = 1%nat /\ List.length nsfs = 1%nat /\
    Forall (fun e => line_number e = 0) expenses /\
    Forall (fun x => nsf_line_number x = 0) nsfs.
Proof.
  match eval vm_compute in
        (process_page_lines MyMainMoney.format Samples.sample_parser
           ["Page 1 of 3"; start_of_items MyMainMoney.format; "28 Dec COFFEE SHOP 4.50";
            "Item returned NSF 1,000.55"] "")
  with
  | Ok (?es, ?ns, ?l, ?p) => exists es, ns, l, p
  end.
  split; [vm_compute; reflexivity|]. split; [reflexivity|]. split; [reflexivity|].
  eapply (main_money_records_have_no_line_number Samples.sample_parser
            ["Page 1 of 3"; start_of_items MyMainMoney.format; "28 Dec COFFEE SHOP 4.50";
             "Item returned NSF 1,000.55"] "").
  vm_compute. reflexivity.
Defined.

Lemma load_categories_entries_witness :
  exists name,
    configured
      [("Food", [("Dining", [("COFFEE SHOP", Some "Coffee"); ("BAKERY", None)])]);
       ("Bank", [("Fees", [("OVERLIMIT FEE", Some "Overlimit fee");
                           ("COFFEE SHOP", None)])])]
      "Food" "Dining" "BAKERY" name /\
    "BAKERY" = default "BAKERY" name.
Proof.
  apply (proj1 (proj2 (load_categories_entries
           [("Food", [("Dining", [("COFFEE SHOP", Some "Coffee"); ("BAKERY", None)])]);
            ("Bank", [("Fees", [("OVERLIMIT FEE", Some "Overlimit fee");
                                ("COFFEE SHOP", None)])])]))
           "BAKERY" "Food" "Dining" "BAKERY").
  vm_compute. right. left.
Defined.

Lemma generate_report_needs_dates_witness :
  Main.generate_report
    [Samples.dated 1 (mkDate 2022 12 28) "Food" "Dining";
     Resolver.mkObj 2 (mkExpense (DStr "") (Some 2023) "Food" "Dining" 100 0 "Coffee"
                         None false)]
  = None.
Proof.
  apply (proj2 (generate_report_needs_dates
           [Samples.dated 1 (mkDate 2022 12 28) "Food" "Dining";
            Resolver.mkObj 2 (mkExpense (DStr "") (Some 2023) "Food" "Dining" 100 0
                                "Coffee" None false)])
           (Resolver.mkObj 2 (mkExpense (DStr "") (Some 2023) "Food" "Dining" 100 0
                                "Coffee" None false)) 2023).
  - right. left.
  - split; reflexivity.
Defined.
